(** * setup_taxi_database.py: loading NYC taxi data into DuckDB

    A shallow embedding of [src/setup_taxi_database.py].  The script is a
    sequence of SQL statements sent to one DuckDB connection, wrapped in
    Python [try]/[except] blocks.  The embedding has three layers:

    - [Py]: the Python side (exceptions, a state-and-exception monad in
      which the state survives a raise, f-string integer formatting);
    - [Sql]: the SQL side (NULL, three-valued logic, DOUBLE ordering,
      [MAX], [ROW_NUMBER() OVER ()], [LIMIT]);
    - the script itself: [download_zone_lookup], [create_minimal_zones],
      [setup_database] and the [__main__] block.

    The network, the file system, the interpreter's builtins and the
    user are the script's environment: a [world] records what each
    download and each [read_parquet] yields and what [str.strip] and
    [int] return. *)

From Stdlib Require Import ZArith QArith List String Ascii Bool Lia.
Import ListNotations.

Open Scope Z_scope.
Open Scope list_scope.

(* ================================================================= *)
(** ** Python layer *)

Module Py.

(** The exceptions the script can meet.  [KeyboardInterrupt] derives from
    [BaseException], the others from [Exception]. *)
Inductive exn : Type :=
  | IndexError
  | ValueError
  | KeyboardInterrupt
  | EOFError
  | ImportError
  | DuckDBError.

Definition is_Exception (e : exn) : bool :=
  match e with
  | KeyboardInterrupt => false
  | _ => true
  end.

Definition exn_eqb (a b : exn) : bool :=
  match a, b with
  | IndexError, IndexError
  | ValueError, ValueError
  | KeyboardInterrupt, KeyboardInterrupt
  | EOFError, EOFError
  | ImportError, ImportError
  | DuckDBError, DuckDBError => true
  | _, _ => false
  end.

Inductive outcome (A : Type) : Type :=
  | Ret (a : A)
  | Exc (e : exn).
Arguments Ret {A} a.
Arguments Exc {A} e.

Section Monad.
Context {S : Type}.

(** A computation over the mutable state [S]: what was written before an
    exception was raised stays written. *)
Definition comp (A : Type) : Type := S -> outcome A * S.

Definition ret {A} (a : A) : comp A := fun s => (Ret a, s).
Definition raise {A} (e : exn) : comp A := fun s => (Exc e, s).

Definition bind {A B} (c : comp A) (k : A -> comp B) : comp B :=
  fun s =>
    match c s with
    | (Ret a, s') => k a s'
    | (Exc e, s') => (Exc e, s')
    end.

Definition get : comp S := fun s => (Ret s, s).
Definition modify (f : S -> S) : comp unit := fun s => (Ret tt, f s).

(** [try: c  except Exception: h] *)
Definition try_except {A} (c : comp A) (h : exn -> comp A) : comp A :=
  fun s =>
    match c s with
    | (Ret a, s') => (Ret a, s')
    | (Exc e, s') => if is_Exception e then h e s' else (Exc e, s')
    end.

(** [try: c  except (E1, ..., En): h] *)
Definition try_except_of {A} (caught : list exn) (c h : comp A) : comp A :=
  fun s =>
    match c s with
    | (Ret a, s') => (Ret a, s')
    | (Exc e, s') => if existsb (exn_eqb e) caught then h s' else (Exc e, s')
    end.

(** [for x in xs: body x] *)
Fixpoint for_each {A} (xs : list A) (body : A -> comp unit) : comp unit :=
  match xs with
  | [] => ret tt
  | x :: rest => bind (body x) (fun _ => for_each rest body)
  end.
End Monad.

(** *** f-string integer fields *)

Definition digit_char (d : Z) : ascii := ascii_of_nat (Z.to_nat (48 + d)).

Fixpoint pos_digits (fuel : nat) (n : Z) (acc : string) : string :=
  match fuel with
  | O => acc
  | Datatypes.S fuel' =>
      let acc' := String (digit_char (n mod 10)) acc in
      if n / 10 =? 0 then acc' else pos_digits fuel' (n / 10) acc'
  end.

(** [f"{n}"] for an integer [n]. *)
Definition format_d (n : Z) : string :=
  let body := pos_digits (Datatypes.S (Z.to_nat (Z.log2 (Z.abs n)))) (Z.abs n) "" in
  if n <? 0 then String "-" body else body.

(** [f"{n:02d}"]: zero-padded to width two (a sign counts in the width). *)
Definition format_02d (n : Z) : string :=
  let s := format_d n in
  if (String.length s <? 2)%nat then String "0" s else s.

End Py.

Notation "x <- c ;; k" := (Py.bind c (fun x => k))
  (at level 61, c at next level, right associativity).
Notation "c ;;; k" := (Py.bind c (fun _ => k))
  (at level 61, right associativity).


(* ================================================================= *)
(** ** SQL layer *)

Module Sql.

(** A DOUBLE value.  DuckDB orders them totally: NaN is above every other
    value, infinities included, and equal to itself. *)
Inductive double : Type :=
  | DNegInf
  | DFin (q : Q)
  | DPosInf
  | DNaN.

Definition double_compare (x y : double) : comparison :=
  match x, y with
  | DNegInf, DNegInf => Eq
  | DNegInf, _ => Lt
  | DFin _, DNegInf => Gt
  | DFin p, DFin q => (p ?= q)%Q
  | DFin _, _ => Lt
  | DPosInf, DPosInf => Eq
  | DPosInf, DNaN => Lt
  | DPosInf, _ => Gt
  | DNaN, DNaN => Eq
  | DNaN, _ => Gt
  end.

(** An integer literal used where a DOUBLE is expected. *)
Definition lit (z : Z) : double := DFin (inject_Z z).

(** A column value is [None] for NULL; so is a boolean (three-valued
    logic): a comparison with NULL is NULL. *)
Definition gt_double (x : option double) (c : double) : option bool :=
  option_map (fun v => match double_compare v c with Gt => true | _ => false end) x.

Definition lt_double (x : option double) (c : double) : option bool :=
  option_map (fun v => match double_compare v c with Lt => true | _ => false end) x.

Definition gt_int (x : option Z) (c : Z) : option bool :=
  option_map (fun v => c <? v) x.

Definition le_int (x : option Z) (c : Z) : option bool :=
  option_map (fun v => v <=? c) x.

(** [a AND b] *)
Definition and3 (a b : option bool) : option bool :=
  match a, b with
  | Some false, _ | _, Some false => Some false
  | Some true, Some true => Some true
  | _, _ => None
  end.

(** WHERE keeps a row only when its condition is TRUE. *)
Definition holds (c : option bool) : bool :=
  match c with
  | Some true => true
  | _ => false
  end.

(** [a + b] on BIGINT: NULL when either side is. *)
Definition add_int (a b : option Z) : option Z :=
  match a, b with
  | Some x, Some y => Some (x + y)
  | _, _ => None
  end.

(** [MAX(col)]: NULLs are skipped; the result is NULL when no value is
    left, in particular over an empty table. *)
Definition max_int (col : list (option Z)) : option Z :=
  fold_left
    (fun acc v =>
       match acc, v with
       | None, _ => v
       | Some _, None => acc
       | Some a, Some b => Some (Z.max a b)
       end)
    col None.

(** [ROW_NUMBER() OVER ()]: the rows of the input numbered from 1, in the
    order the scan delivers them (DuckDB preserves that order). *)
Fixpoint number_from {A} (k : Z) (l : list A) : list (Z * A) :=
  match l with
  | [] => []
  | x :: rest => (k, x) :: number_from (k + 1) rest
  end.

Definition row_number {A} (l : list A) : list (Z * A) := number_from 1 l.

(** [LIMIT n] *)
Fixpoint limit {A} (n : Z) (l : list A) : list A :=
  match l with
  | [] => []
  | x :: rest => if n <=? 0 then [] else x :: limit (n - 1) rest
  end.

End Sql.

(* ================================================================= *)
(** ** Tables and files *)

(** A row of the zone-lookup CSV, under the file's column names. *)
Module Csv.
Record row : Type := mk {
  LocationID : Z;
  Zone : string;
  Borough : string;
  service_zone : string
}.
End Csv.

(** [/tmp/taxi_zone_lookup.csv] as [read_csv_auto] sees it: rows with the
    four columns, or something the SELECT over it cannot read. *)
Inductive csv_file : Type :=
  | CsvRows (rows : list Csv.row)
  | CsvUnreadable.

Module Zones.
Record row : Type := mk {
  location_id : Z;
  zone_name : string;
  borough : string;
  service_zone : string
}.
End Zones.

(** A row of a monthly Parquet file, under the file's column names, with
    the column types of the trips table it feeds (integers, timestamps
    and DOUBLEs, each nullable). *)
Module Parquet.
Record row : Type := mk {
  tpep_pickup_datetime : option Z;
  tpep_dropoff_datetime : option Z;
  PULocationID : option Z;
  DOLocationID : option Z;
  passenger_count : option Z;
  trip_distance : option Sql.double;
  fare_amount : option Sql.double;
  tip_amount : option Sql.double;
  total_amount : option Sql.double;
  payment_type : option Z
}.
End Parquet.

Module Trips.
Record row : Type := mk {
  trip_id : option Z;
  pickup_datetime : option Z;
  dropoff_datetime : option Z;
  pickup_location_id : option Z;
  dropoff_location_id : option Z;
  passenger_count : option Z;
  trip_distance : option Sql.double;
  fare_amount : option Sql.double;
  tip_amount : option Sql.double;
  total_amount : option Sql.double;
  payment_type : option Z
}.
End Trips.

(** What the script prints, reduced to the facts the lines carry. *)
Inductive event : Type :=
  | ZoneLookupDownloaded
  | ZoneLookupFailed
  | ZonesLoaded (zone_count : Z)
  | ZonesLoadError
  | MinimalZonesCreated (n : Z)
  | MonthsToLoad (n : Z)
  | MonthListed (year month : Z)
  | Reading (url : string)
  | Loaded (url : string)
  | CouldNotLoad (url : string)
  | Verified (trip_count zone_count : Z)
  | Report
  | ErrorLoadingTripData
  | SetupComplete (trip_count zone_count : Z)
  | UsingDefault
  | WillLoad (months : Z)
  | Success
  | Issues.

(** The mutable state: the two tables of the database file ([None]: the
    table does not exist), the temporary CSV, whether the connection is
    open, and the standard output. *)
Record state : Type := mkState {
  zones : option (list Zones.row);
  trips : option (list Trips.row);
  tmp_csv : option csv_file;
  con_open : bool;
  stdout : list event
}.

Definition set_zones (z : option (list Zones.row)) (s : state) : state :=
  mkState z (trips s) (tmp_csv s) (con_open s) (stdout s).
Definition set_trips (t : option (list Trips.row)) (s : state) : state :=
  mkState (zones s) t (tmp_csv s) (con_open s) (stdout s).
Definition set_tmp_csv (f : option csv_file) (s : state) : state :=
  mkState (zones s) (trips s) f (con_open s) (stdout s).
Definition set_con_open (b : bool) (s : state) : state :=
  mkState (zones s) (trips s) (tmp_csv s) b (stdout s).
Definition add_stdout (e : event) (s : state) : state :=
  mkState (zones s) (trips s) (tmp_csv s) (con_open s) (stdout s ++ [e]).

(** The environment of one run. *)
Record world : Type := mkWorld {
  (** the body of the zone-lookup response, when it is fetched and
      written to the temporary file; [None] when [requests.get],
      [raise_for_status], [open] or the write raises *)
  zone_lookup_response : option csv_file;
  (** what [read_parquet(url)] yields; [None] when the statement reading
      it raises (network, HTTP status, missing column, ...) *)
  read_parquet : string -> option (list Parquet.row);
  (** whether the [.df()] conversions of the reporting queries succeed *)
  df_ok : bool;
  (** when the download fails after [open(..., 'wb')] has truncated the
      temporary file (the write raised): what the file is left holding;
      [None] when it fails before the file is opened *)
  failed_write_leaves : option csv_file;
  (** [s.strip()] of the interpreter running the script *)
  str_strip : string -> string;
  (** [int(s)] of the interpreter running the script: the value, or
      [None] when it raises [ValueError] *)
  int_of_str : string -> option Z
}.

Definition M := @Py.comp state.

Definition print (e : event) : M unit := Py.modify (add_stdout e).

(* ================================================================= *)
(** ** The statements the script executes *)

Import Py.

(** [DROP TABLE IF EXISTS zones] *)
Definition drop_zones : M unit := modify (set_zones None).

(** [DROP TABLE IF EXISTS trips] *)
Definition drop_trips : M unit := modify (set_trips None).

(** The SELECT list of the zones statement: the documented renaming. *)
Definition zone_of_csv (r : Csv.row) : Zones.row :=
  {| Zones.location_id := Csv.LocationID r;
     Zones.zone_name := Csv.Zone r;
     Zones.borough := Csv.Borough r;
     Zones.service_zone := Csv.service_zone r |}.

(** [CREATE TABLE zones AS SELECT ... FROM read_csv_auto('/tmp/...')].
    A statement that raises leaves the database as it was. *)
Definition create_zones_from_csv : M unit :=
  s <- get ;;
  match zones s, tmp_csv s with
  | None, Some (CsvRows rows) => modify (set_zones (Some (map zone_of_csv rows)))
  | _, _ => raise DuckDBError
  end.

(** [CREATE TABLE zones (location_id INTEGER PRIMARY KEY, ...)] *)
Definition create_table_zones : M unit :=
  s <- get ;;
  match zones s with
  | None => modify (set_zones (Some []))
  | Some _ => raise DuckDBError
  end.

(** [INSERT INTO zones VALUES (?, ?, ?, ?)] into the table with the
    primary key: a [location_id] already present is refused. *)
Definition insert_into_zones (zone : Zones.row) : M unit :=
  s <- get ;;
  match zones s with
  | Some rows =>
      if existsb (fun r => Zones.location_id r =? Zones.location_id zone) rows
      then raise DuckDBError
      else modify (set_zones (Some (rows ++ [zone])))
  | None => raise DuckDBError
  end.

(** [SELECT COUNT( * ) FROM zones] *)
Definition count_zones : M Z :=
  s <- get ;;
  match zones s with
  | Some rows => ret (Z.of_nat (List.length rows))
  | None => raise DuckDBError
  end.

(** [SELECT COUNT( * ) FROM trips] *)
Definition count_trips : M Z :=
  s <- get ;;
  match trips s with
  | Some rows => ret (Z.of_nat (List.length rows))
  | None => raise DuckDBError
  end.

(** The WHERE clause shared by the two trip statements. *)
Definition where_clause (r : Parquet.row) : option bool :=
  Sql.and3 (Sql.and3 (Sql.and3 (Sql.and3 (Sql.and3
    (Sql.gt_double (Parquet.fare_amount r) (Sql.lit 0))
    (Sql.lt_double (Parquet.fare_amount r) (Sql.lit 500)))
    (Sql.gt_double (Parquet.trip_distance r) (Sql.lit 0)))
    (Sql.lt_double (Parquet.trip_distance r) (Sql.lit 100)))
    (Sql.gt_int (Parquet.passenger_count r) 0))
    (Sql.le_int (Parquet.passenger_count r) 6).

Definition qualifies (r : Parquet.row) : bool := Sql.holds (where_clause r).

(** The SELECT list shared by the two trip statements, given the value
    computed for [trip_id]. *)
Definition trip_of_parquet (id : option Z) (r : Parquet.row) : Trips.row :=
  {| Trips.trip_id := id;
     Trips.pickup_datetime := Parquet.tpep_pickup_datetime r;
     Trips.dropoff_datetime := Parquet.tpep_dropoff_datetime r;
     Trips.pickup_location_id := Parquet.PULocationID r;
     Trips.dropoff_location_id := Parquet.DOLocationID r;
     Trips.passenger_count := Parquet.passenger_count r;
     Trips.trip_distance := Parquet.trip_distance r;
     Trips.fare_amount := Parquet.fare_amount r;
     Trips.tip_amount := Parquet.tip_amount r;
     Trips.total_amount := Parquet.total_amount r;
     Trips.payment_type := Parquet.payment_type r |}.

(** The query of [CREATE TABLE trips AS]: filter, number, cap. *)
Definition select_first (file : list Parquet.row) : list Trips.row :=
  Sql.limit 100000
    (map (fun nr => trip_of_parquet (Some (fst nr)) (snd nr))
         (Sql.row_number (filter qualifies file))).

(** The query of [INSERT INTO trips]: the row number is offset by
    [(SELECT MAX(trip_id) FROM trips)], read from the table as it is when
    the statement starts. *)
Definition select_next (table : list Trips.row) (file : list Parquet.row)
  : list Trips.row :=
  let offset := Sql.max_int (map Trips.trip_id table) in
  Sql.limit 50000
    (map (fun nr => trip_of_parquet (Sql.add_int (Some (fst nr)) offset) (snd nr))
         (Sql.row_number (filter qualifies file))).

(** [CREATE TABLE trips AS SELECT ... FROM read_parquet('{first_url}') ...] *)
Definition create_trips_as (w : world) (url : string) : M unit :=
  s <- get ;;
  match trips s, read_parquet w url with
  | None, Some file => modify (set_trips (Some (select_first file)))
  | _, _ => raise DuckDBError
  end.

(** [INSERT INTO trips SELECT ... FROM read_parquet('{url}') ...] *)
Definition insert_into_trips (w : world) (url : string) : M unit :=
  s <- get ;;
  match trips s, read_parquet w url with
  | Some table, Some file =>
      modify (set_trips (Some (table ++ select_next table file)))
  | _, _ => raise DuckDBError
  end.

(** One of the reporting queries followed by [.df()]: it reads [trips]
    (and [zones] for the join) and writes nothing; the conversion to a
    data frame needs pandas. *)
Definition query_df (w : world) (joins_zones : bool) : M unit :=
  s <- get ;;
  match trips s, (if joins_zones then zones s else Some []) with
  | Some _, Some _ => if df_ok w then print Report else raise ImportError
  | _, _ => raise DuckDBError
  end.

(* ================================================================= *)
(** ** The script *)

Definition download_zone_lookup (w : world) : M bool :=
  match zone_lookup_response w with
  | Some body =>
      modify (set_tmp_csv (Some body)) ;;;
      print ZoneLookupDownloaded ;;;
      ret true
  | None =>
      match failed_write_leaves w with
      | Some partial => modify (set_tmp_csv (Some partial))
      | None => ret tt
      end ;;;
      print ZoneLookupFailed ;;;
      ret false
  end.

Definition zones_data : list Zones.row :=
  [ Zones.mk 1 "Newark Airport" "EWR" "EWR";
    Zones.mk 4 "Alphabet City" "Manhattan" "Yellow Zone";
    Zones.mk 12 "Battery Park" "Manhattan" "Yellow Zone";
    Zones.mk 13 "Battery Park City" "Manhattan" "Yellow Zone";
    Zones.mk 43 "Central Park" "Manhattan" "Yellow Zone";
    Zones.mk 45 "Chinatown" "Manhattan" "Yellow Zone";
    Zones.mk 79 "East Village" "Manhattan" "Yellow Zone";
    Zones.mk 87 "Financial District North" "Manhattan" "Yellow Zone";
    Zones.mk 88 "Financial District South" "Manhattan" "Yellow Zone";
    Zones.mk 100 "Garment District" "Manhattan" "Yellow Zone";
    Zones.mk 107 "Gramercy" "Manhattan" "Yellow Zone";
    Zones.mk 113 "Greenwich Village North" "Manhattan" "Yellow Zone";
    Zones.mk 114 "Greenwich Village South" "Manhattan" "Yellow Zone";
    Zones.mk 125 "Hell's Kitchen" "Manhattan" "Yellow Zone";
    Zones.mk 137 "Kips Bay" "Manhattan" "Yellow Zone";
    Zones.mk 140 "Lenox Hill East" "Manhattan" "Yellow Zone";
    Zones.mk 141 "Lenox Hill West" "Manhattan" "Yellow Zone";
    Zones.mk 142 "Lincoln Square East" "Manhattan" "Yellow Zone";
    Zones.mk 143 "Lincoln Square West" "Manhattan" "Yellow Zone";
    Zones.mk 144 "Little Italy" "Manhattan" "Yellow Zone";
    Zones.mk 148 "Lower East Side" "Manhattan" "Yellow Zone";
    Zones.mk 161 "Midtown Center" "Manhattan" "Yellow Zone";
    Zones.mk 162 "Midtown East" "Manhattan" "Yellow Zone";
    Zones.mk 163 "Midtown North" "Manhattan" "Yellow Zone";
    Zones.mk 164 "Midtown South" "Manhattan" "Yellow Zone";
    Zones.mk 170 "Murray Hill" "Manhattan" "Yellow Zone";
    Zones.mk 186 "Penn Station" "Manhattan" "Yellow Zone";
    Zones.mk 224 "Times Square" "Manhattan" "Yellow Zone";
    Zones.mk 229 "Tribeca" "Manhattan" "Yellow Zone";
    Zones.mk 230 "Two Bridges" "Manhattan" "Yellow Zone";
    Zones.mk 231 "UN/Turtle Bay South" "Manhattan" "Yellow Zone";
    Zones.mk 232 "Union Square" "Manhattan" "Yellow Zone";
    Zones.mk 233 "Upper East Side North" "Manhattan" "Yellow Zone";
    Zones.mk 234 "Upper East Side South" "Manhattan" "Yellow Zone";
    Zones.mk 236 "Upper West Side North" "Manhattan" "Yellow Zone";
    Zones.mk 237 "Upper West Side South" "Manhattan" "Yellow Zone";
    Zones.mk 249 "Yorkville East" "Manhattan" "Yellow Zone";
    Zones.mk 250 "Yorkville West" "Manhattan" "Yellow Zone" ].

Definition create_minimal_zones : M unit :=
  create_table_zones ;;;
  for_each zones_data insert_into_zones ;;;
  print (MinimalZonesCreated (Z.of_nat (List.length zones_data))).

(** The zones block of [setup_database]. *)
Definition load_zones (w : world) : M unit :=
  zones_downloaded <- download_zone_lookup w ;;
  drop_zones ;;;
  if (zones_downloaded : bool) then
    try_except
      (create_zones_from_csv ;;;
       zone_count <- count_zones ;;
       print (ZonesLoaded zone_count))
      (fun _ => print ZonesLoadError ;;; create_minimal_zones)
  else
    create_minimal_zones.

Definition current_year : Z := 2024.

(** [range(n)] *)
Definition range (n : Z) : list Z := map Z.of_nat (seq 0 (Z.to_nat n)).

(** The list [months] that [setup_database] builds. *)
Definition months_of (months_to_load : Z) : list (Z * Z) :=
  flat_map
    (fun i =>
       let month := i + 1 in
       if month <=? 12 then [(current_year, month)] else [])
    (range months_to_load).

Definition url_of (ym : Z * Z) : string :=
  let (year, month) := ym in
  ("https://d37ci6vzurychx.cloudfront.net/trip-data/yellow_tripdata_"
     ++ format_d year ++ "-" ++ format_02d month ++ ".parquet")%string.

(** The list [urls] that [setup_database] builds. *)
Definition urls_of (months_to_load : Z) : list string :=
  map url_of (months_of months_to_load).

(** [urls[0]] *)
Definition first_of (urls : list string) : M string :=
  match urls with
  | url :: _ => ret url
  | [] => raise IndexError
  end.

(** The body of the loop over [urls[1:]], with its own [try]. *)
Definition load_month (w : world) (url : string) : M unit :=
  try_except
    (print (Reading url) ;;;
     insert_into_trips w url ;;;
     print (Loaded url))
    (fun _ => print (CouldNotLoad url)).

(** The body of the outer [try] of [setup_database]; it yields
    [(trip_count, zone_count)]. *)
Definition load_trips_and_report (w : world) (urls : list string) : M (Z * Z) :=
  first_url <- first_of urls ;;
  print (Reading first_url) ;;;
  create_trips_as w first_url ;;;
  print (Loaded first_url) ;;;
  for_each (tl urls) (load_month w) ;;;
  trip_count <- count_trips ;;
  zone_count <- count_zones ;;
  print (Verified trip_count zone_count) ;;;
  query_df w false ;;;
  query_df w false ;;;
  query_df w false ;;;
  query_df w true ;;;
  query_df w false ;;;
  ret (trip_count, zone_count).

(** Everything of [setup_database] after the zones block. *)
Definition load_trips (w : world) (months_to_load : Z) : M bool :=
  let months := months_of months_to_load in
  print (MonthsToLoad (Z.of_nat (List.length months))) ;;;
  drop_trips ;;;
  let urls := map url_of months in
  for_each months (fun ym => print (MonthListed (fst ym) (snd ym))) ;;;
  r <- try_except
         (counts <- load_trips_and_report w urls ;; ret (Some counts))
         (fun _ =>
            print ErrorLoadingTripData ;;;
            modify (set_con_open false) ;;;
            ret None) ;;
  match r with
  | None => ret false
  | Some (trip_count, zone_count) =>
      modify (set_con_open false) ;;;
      print (SetupComplete trip_count zone_count) ;;;
      ret true
  end.

(** [setup_database(db_path, months_to_load)], run on the database file
    whose tables the initial state holds. *)
Definition setup_database (w : world) (months_to_load : Z) : M bool :=
  modify (set_con_open true) ;;;
  load_zones w ;;;
  load_trips w months_to_load.

(** What [input(...)] meets on standard input.  A line is the [str] that
    [input] returns; the script looks at it only through [strip], [int]
    and the comparison with the empty string. *)
Inductive stdin : Type :=
  | Line (s : string)
  | Interrupt
  | EndOfFile.

Definition input (i : stdin) : M string :=
  match i with
  | Line s => ret s
  | Interrupt => raise KeyboardInterrupt
  | EndOfFile => raise EOFError
  end.

(** [int(s)] *)
Definition int (w : world) (s : string) : M Z :=
  match int_of_str w s with
  | Some n => ret n
  | None => raise ValueError
  end.

(** The prompt of the [__main__] block. *)
Definition ask_months (w : world) (i : stdin) : M Z :=
  try_except_of [ValueError; KeyboardInterrupt]
    (s <- input i ;;
     let months_input := str_strip w s in
     if (months_input =? "")%string then ret 3
     else
       months_to_load <- int w months_input ;;
       if months_to_load <? 1 then ret 1
       else if 12 <? months_to_load then ret 12
       else ret months_to_load)
    (print UsingDefault ;;; ret 3).

(** The [__main__] block; the value is the argument of [sys.exit]. *)
Definition main (w : world) (i : stdin) : M Z :=
  months_to_load <- ask_months w i ;;
  print (WillLoad months_to_load) ;;;
  success <- setup_database w months_to_load ;;
  if (success : bool) then print Success ;;; ret 0
  else print Issues ;;; ret 1.


(* ================================================================= *)
(** ** Descriptions of the result, to compare the script with *)

(** The zones table a run ends with. *)
Definition zones_after (w : world) : list Zones.row :=
  match zone_lookup_response w with
  | Some (CsvRows rows) => map zone_of_csv rows
  | _ => zones_data
  end.

(** The state in which the statement loading the CSV runs: after the
    connection is opened, the download attempted and [zones] dropped. *)
Definition before_zones_load (w : world) (s : state) : state :=
  snd (drop_zones (snd (download_zone_lookup w (set_con_open true s)))).

(** The trips table after the loop over [urls], started on [table]: a
    month whose file cannot be read leaves the table as it was. *)
Fixpoint append_months (w : world) (urls : list string) (table : list Trips.row)
  : list Trips.row :=
  match urls with
  | [] => table
  | url :: rest =>
      append_months w rest
        match read_parquet w url with
        | Some file => table ++ select_next table file
        | None => table
        end
  end.

(** The value [setup_database] returns and the trips table it leaves. *)
Definition trips_after (w : world) (urls : list string)
  : bool * option (list Trips.row) :=
  match urls with
  | [] => (false, None)
  | first_url :: rest =>
      match read_parquet w first_url with
      | None => (false, None)
      | Some file => (df_ok w, Some (append_months w rest (select_first file)))
      end
  end.

(** A row without its [trip_id]. *)
Definition forget_id (r : Trips.row) : Trips.row :=
  {| Trips.trip_id := None;
     Trips.pickup_datetime := Trips.pickup_datetime r;
     Trips.dropoff_datetime := Trips.dropoff_datetime r;
     Trips.pickup_location_id := Trips.pickup_location_id r;
     Trips.dropoff_location_id := Trips.dropoff_location_id r;
     Trips.passenger_count := Trips.passenger_count r;
     Trips.trip_distance := Trips.trip_distance r;
     Trips.fare_amount := Trips.fare_amount r;
     Trips.tip_amount := Trips.tip_amount r;
     Trips.total_amount := Trips.total_amount r;
     Trips.payment_type := Trips.payment_type r |}.

(** The rows one monthly file contributes under a cap, ids apart. *)
Definition kept (cap : Z) (file : list Parquet.row) : list Trips.row :=
  map (trip_of_parquet None) (Sql.limit cap (filter qualifies file)).

(** The files of the months whose load succeeds, in order. *)
Definition readable (w : world) (urls : list string) : list (list Parquet.row) :=
  flat_map
    (fun url => match read_parquet w url with Some file => [file] | None => [] end)
    urls.

(** [k; k+1; ...], [n] of them. *)
Fixpoint zseq (k : Z) (n : nat) : list Z :=
  match n with
  | O => []
  | Datatypes.S n' => k :: zseq (k + 1) n'
  end.

(** The ids of a table are 1, 2, ..., in row order. *)
Definition sequential (table : list Trips.row) : Prop :=
  map Trips.trip_id table = map Some (zseq 1 (List.length table)).

(** Whether the strings of a list are pairwise different. *)
Fixpoint distinct (l : list string) : bool :=
  match l with
  | [] => true
  | x :: rest => negb (existsb (String.eqb x) rest) && distinct rest
  end.

(** The quality filters as the code applies them to a stored row. *)
Definition in_open (lo hi : Z) (x : option Sql.double) : Prop :=
  exists q, x = Some (Sql.DFin q) /\ (inject_Z lo < q)%Q /\ (q < inject_Z hi)%Q.

Definition passes_filters (r : Trips.row) : Prop :=
  in_open 0 500 (Trips.fare_amount r) /\
  in_open 0 100 (Trips.trip_distance r) /\
  exists n, Trips.passenger_count r = Some n /\ 0 < n <= 6.

(** The quality filters as the specification words them, with
    [passenger_count] in the interval (1,6]. *)
Definition passes_filters_as_specified (r : Trips.row) : Prop :=
  in_open 0 500 (Trips.fare_amount r) /\
  in_open 0 100 (Trips.trip_distance r) /\
  exists n, Trips.passenger_count r = Some n /\ 1 < n <= 6.

(** The month part of a file name as the naming scheme writes it. *)
Definition two_digits (m : Z) : string :=
  String (digit_char (m / 10)) (String (digit_char (m mod 10)) "").

(** The lines the loop over [urls[1:]] prints for one month. *)
Definition month_lines (w : world) (url : string) : list event :=
  [ Reading url;
    match read_parquet w url with
    | Some _ => Loaded url
    | None => CouldNotLoad url
    end ].

(* ================================================================= *)
(** ** Sample environments *)

Module Sample.

Definition fresh : state := mkState None None None false [].

(** A database file left by an earlier run. *)
Definition stale : state :=
  mkState (Some [Zones.mk 7 "Astoria" "Queens" "Boro Zone"])
          (Some [trip_of_parquet (Some 9) (Parquet.mk None None None None None None None None None None)])
          (Some CsvUnreadable) false [].

Definition ride (passengers : Z) (fare : Q) : Parquet.row :=
  Parquet.mk (Some 1704067200) (Some 1704068100) (Some 161) (Some 237)
             (Some passengers) (Some (Sql.DFin (5 # 2))) (Some (Sql.DFin fare))
             (Some (Sql.DFin 3)) (Some (Sql.DFin 18)) (Some 1).

(** The interpreter of the samples: [strip] and [int] as the builtins act
    on the lines typed below, which are short and made of ASCII
    characters.  Whitespace there is tab, newline, vertical tab, form
    feed, carriage return, the separators 0x1c-0x1f and space. *)
Definition isspace (c : ascii) : bool :=
  let n := nat_of_ascii c in
  ((9 <=? n) && (n <=? 13) || (28 <=? n) && (n <=? 32))%nat.

Fixpoint lstrip_chars (l : list ascii) : list ascii :=
  match l with
  | c :: rest => if isspace c then lstrip_chars rest else l
  | [] => []
  end.

Definition strip (s : string) : string :=
  string_of_list_ascii
    (rev (lstrip_chars (rev (lstrip_chars (list_ascii_of_string s))))).

Definition digit_of (c : ascii) : option Z :=
  let n := nat_of_ascii c in
  if ((48 <=? n) && (n <=? 57))%nat then Some (Z.of_nat n - 48) else None.

(** The digit part of an integer literal: decimal digits, where a single
    underscore may sit between two digits.  [seen] tells whether the
    previous character was a digit. *)
Fixpoint int_digits (l : list ascii) (acc : Z) (seen : bool) : option Z :=
  match l with
  | [] => if seen then Some acc else None
  | c :: rest =>
      match digit_of c with
      | Some d => int_digits rest (10 * acc + d) true
      | None =>
          if (nat_of_ascii c =? 95)%nat && seen
          then match rest with
               | [] => None
               | _ => int_digits rest acc false
               end
          else None
      end
  end.

(** Surrounding whitespace, an optional sign, then the digit part;
    anything else is refused. *)
Definition int_parse (s : string) : option Z :=
  match list_ascii_of_string (strip s) with
  | "+"%char :: rest => int_digits rest 0 false
  | "-"%char :: rest => option_map Z.opp (int_digits rest 0 false)
  | l => int_digits l 0 false
  end.

Definition world_of (zone_lookup : option csv_file)
           (parquet : string -> option (list Parquet.row)) (df : bool) : world :=
  mkWorld zone_lookup parquet df None strip int_parse.

Definition jan : string :=
  "https://d37ci6vzurychx.cloudfront.net/trip-data/yellow_tripdata_2024-01.parquet".
Definition feb : string :=
  "https://d37ci6vzurychx.cloudfront.net/trip-data/yellow_tripdata_2024-02.parquet".
Definition mar : string :=
  "https://d37ci6vzurychx.cloudfront.net/trip-data/yellow_tripdata_2024-03.parquet".

(** Every month readable, two rides each, one of them with a fare that
    the filter drops; no zone lookup. *)
Definition all_months : world :=
  world_of None (fun _ => Some [ride 1 12; ride 2 (-4)]) true.

(** February cannot be read. *)
Definition no_february : world :=
  world_of None
    (fun url => if (url =? feb)%string then None else Some [ride 1 12; ride 3 30])
    true.

(** January cannot be read. *)
Definition no_january : world :=
  world_of None
    (fun url => if (url =? jan)%string then None else Some [ride 1 12])
    true.

(** January holds no ride that passes the filters. *)
Definition empty_january : world :=
  world_of None
    (fun url => if (url =? jan)%string then Some [ride 0 12]
                else Some [ride 1 12; ride 3 30])
    true.

Definition lookup : list Csv.row :=
  [ Csv.mk 1 "Newark Airport" "EWR" "EWR";
    Csv.mk 2 "Jamaica Bay" "Queens" "Boro Zone";
    Csv.mk 3 "Allerton/Pelham Gardens" "Bronx" "Boro Zone" ].

Definition with_lookup : world :=
  world_of (Some (CsvRows lookup)) (fun _ => Some [ride 1 12]) true.

Definition bad_lookup : world :=
  world_of (Some CsvUnreadable) (fun _ => Some [ride 1 12]) true.

(** Every month readable, but the reporting queries cannot be turned
    into data frames. *)
Definition no_pandas : world :=
  world_of None (fun _ => Some [ride 1 12; ride 3 30]) false.

(** A machine on which an earlier run left a readable temporary CSV. *)
Definition stale_lookup : state :=
  mkState None None (Some (CsvRows lookup)) false [].

(** The download fails while writing: the temporary file is left empty. *)
Definition write_fails : world :=
  mkWorld None (fun _ => Some [ride 1 12]) true (Some CsvUnreadable) strip int_parse.

End Sample.

(** Unfolds the monad and the trip statements on an explicit state. *)
Ltac run :=
  cbv [bind modify print ret raise get try_except is_Exception
       drop_trips create_trips_as insert_into_trips count_trips count_zones
       query_df first_of
       set_trips set_con_open add_stdout
       zones trips tmp_csv con_open stdout].

(* ================================================================= *)
(** ** The zones block *)

Lemma create_minimal_zones_fresh t f c o :
  create_minimal_zones (mkState None t f c o)
  = (Ret tt, mkState (Some zones_data) t f c (o ++ [MinimalZonesCreated 38])).
Proof. vm_compute. reflexivity. Qed.

(** The zones block never raises; it leaves the table [zones_after]
    describes and touches neither [trips] nor the connection. *)
Lemma load_zones_spec w z t f c o :
  exists f' out,
    load_zones w (mkState z t f c o)
    = (Ret tt, mkState (Some (zones_after w)) t f' c (o ++ out)).
Proof.
  unfold load_zones, download_zone_lookup, zones_after.
  destruct (zone_lookup_response w) as [[rows|]|].
  - do 2 eexists. cbv [bind modify print ret try_except drop_zones
      create_zones_from_csv get count_zones set_tmp_csv add_stdout set_zones
      zones trips tmp_csv con_open stdout].
    rewrite <- !app_assoc. reflexivity.
  - do 2 eexists. cbv [bind modify print ret raise try_except drop_zones
      create_zones_from_csv get set_tmp_csv add_stdout set_zones
      zones trips tmp_csv con_open stdout is_Exception].
    rewrite create_minimal_zones_fresh, <- !app_assoc. reflexivity.
  - destruct (failed_write_leaves w); do 2 eexists;
      cbv [bind modify print ret drop_zones set_tmp_csv add_stdout set_zones
           zones trips tmp_csv con_open stdout];
      rewrite create_minimal_zones_fresh, <- !app_assoc; reflexivity.
Qed.

Lemma download_zone_lookup_false w s :
  fst (download_zone_lookup w s) = Ret false <-> zone_lookup_response w = None.
Proof.
  unfold download_zone_lookup. destruct (zone_lookup_response w); simpl.
  - split; discriminate.
  - destruct (failed_write_leaves w); split; reflexivity.
Qed.

(* ================================================================= *)
(** ** The trips block *)

Lemma listing_prints (months : list (Z * Z)) z t f c o :
  exists out,
    for_each months (fun ym => print (MonthListed (fst ym) (snd ym)))
      (mkState z t f c o)
    = (Ret tt, mkState z t f c (o ++ out)).
Proof.
  revert o. induction months as [|ym rest IH]; intro o; simpl.
  - exists []. now rewrite app_nil_r.
  - destruct (IH (o ++ [MonthListed (fst ym) (snd ym)])) as [out E].
    exists (MonthListed (fst ym) (snd ym) :: out).
    etransitivity; [exact E|]. now rewrite <- app_assoc.
Qed.

(** The loop over [urls[1:]] never raises: a month that fails is skipped. *)
Lemma load_months_spec w urls :
  forall z table f c o,
  exists out,
    for_each urls (load_month w) (mkState z (Some table) f c o)
    = (Ret tt, mkState z (Some (append_months w urls table)) f c (o ++ out)).
Proof.
  induction urls as [|url rest IH]; intros z table f c o; simpl.
  - exists []. now rewrite app_nil_r.
  - unfold load_month at 1. run.
    destruct (read_parquet w url) as [file|]; run;
      match goal with
      | |- context [for_each rest (load_month w) (mkState ?z' (Some ?t') ?f' ?c' ?o')] =>
          destruct (IH z' t' f' c' o') as [out E]
      end;
      rewrite E, <- !app_assoc; eexists; reflexivity.
Qed.

(** The body of the outer [try], started with no trips table. *)
Lemma load_trips_and_report_spec w urls zs f c o :
  match trips_after w urls with
  | (true, table) =>
      exists rows out,
        table = Some rows /\
        load_trips_and_report w urls (mkState (Some zs) None f c o)
        = (Ret (Z.of_nat (List.length rows), Z.of_nat (List.length zs)),
           mkState (Some zs) table f c (o ++ out)) /\
        In (Verified (Z.of_nat (List.length rows)) (Z.of_nat (List.length zs))) out
  | (false, table) =>
      exists e out,
        load_trips_and_report w urls (mkState (Some zs) None f c o)
        = (Exc e, mkState (Some zs) table f c (o ++ out)) /\
        is_Exception e = true
  end.
Proof.
  unfold trips_after, load_trips_and_report.
  destruct urls as [|first_url rest].
  - exists IndexError, []. rewrite app_nil_r. split; reflexivity.
  - run. destruct (read_parquet w first_url) as [file|].
    + destruct (load_months_spec w rest (Some zs) (select_first file) f c
                  ((o ++ [Reading first_url]) ++ [Loaded first_url])) as [o1 E].
      simpl tl. run. rewrite E.
      destruct (df_ok w).
      * do 2 eexists. split; [reflexivity|]. rewrite <- !app_assoc.
        split; [reflexivity|].
        rewrite !in_app_iff. simpl. tauto.
      * exists ImportError. eexists. rewrite <- !app_assoc. split; reflexivity.
    + exists DuckDBError. eexists. split; reflexivity.
Qed.

(** The trips block never raises, closes the connection, leaves [zones]
    alone, and its value and trips table are those of [trips_after]; when
    it returns [True] it has printed the verification line. *)
Lemma load_trips_spec w n zs t f c o :
  exists out,
    load_trips w n (mkState (Some zs) t f c o)
    = (Ret (fst (trips_after w (urls_of n))),
       mkState (Some zs) (snd (trips_after w (urls_of n))) f false (o ++ out)) /\
    (fst (trips_after w (urls_of n)) = true ->
     exists rows,
       snd (trips_after w (urls_of n)) = Some rows /\
       In (Verified (Z.of_nat (List.length rows)) (Z.of_nat (List.length zs))) out).
Proof.
  unfold load_trips.
  set (listing := fun ym : Z * Z => print (MonthListed (fst ym) (snd ym))).
  run. subst listing.
  destruct (listing_prints (months_of n) (Some zs) None f c
              (o ++ [MonthsToLoad (Z.of_nat (List.length (months_of n)))])) as [o1 E1].
  rewrite E1. fold (urls_of n).
  pose proof (load_trips_and_report_spec w (urls_of n) zs f c
                ((o ++ [MonthsToLoad (Z.of_nat (List.length (months_of n)))]) ++ o1)) as H.
  destruct (trips_after w (urls_of n)) as [[|] table]; simpl fst; simpl snd.
  - destruct H as (rows & o2 & -> & E2 & Hin). rewrite E2, <- !app_assoc.
    eexists. split; [reflexivity|]. intros _. exists rows. split; [reflexivity|].
    rewrite !in_app_iff. tauto.
  - destruct H as (e & o2 & E2 & He). rewrite E2, <- !app_assoc.
    destruct e; try discriminate He;
      (eexists; split; [reflexivity | discriminate]).
Qed.

(** [setup_database] always returns: the value and the final state. *)
Lemma setup_database_spec w n s :
  exists f' out,
    setup_database w n s
    = (Ret (fst (trips_after w (urls_of n))),
       mkState (Some (zones_after w)) (snd (trips_after w (urls_of n))) f' false
               (stdout s ++ out)) /\
    (fst (trips_after w (urls_of n)) = true ->
     exists rows,
       snd (trips_after w (urls_of n)) = Some rows /\
       In (Verified (Z.of_nat (List.length rows))
                    (Z.of_nat (List.length (zones_after w)))) out).
Proof.
  destruct s as [z t f c o]. unfold setup_database. run.
  destruct (load_zones_spec w z t f true o) as (f' & o1 & E1). rewrite E1.
  destruct (load_trips_spec w n (zones_after w) t f' true (o ++ o1)) as (o2 & E2 & H).
  rewrite E2, <- app_assoc. exists f', (o1 ++ o2). split; [reflexivity|].
  intro Ht. destruct (H Ht) as (rows & Hr & Hin). exists rows.
  split; [exact Hr|]. rewrite in_app_iff. tauto.
Qed.

(* ================================================================= *)
(** ** Facts about the SQL operators *)

Lemma limit_firstn {A} (n : Z) (l : list A) :
  Sql.limit n l = firstn (Z.to_nat n) l.
Proof.
  revert n. induction l as [|x rest IH]; intro n; simpl.
  - now rewrite firstn_nil.
  - destruct (Z.leb_spec n 0) as [Hle|Hgt].
    + replace (Z.to_nat n) with O by lia. reflexivity.
    + replace (Z.to_nat n) with (Datatypes.S (Z.to_nat (n - 1))) by lia.
      simpl. now rewrite IH.
Qed.

Lemma limit_length {A} (n : Z) (l : list A) :
  0 <= n -> Z.of_nat (List.length (Sql.limit n l)) <= n.
Proof.
  intro Hn. rewrite limit_firstn, length_firstn. lia.
Qed.

Lemma limit_map {A B} (g : A -> B) (n : Z) (l : list A) :
  Sql.limit n (map g l) = map g (Sql.limit n l).
Proof.
  rewrite !limit_firstn. apply firstn_map.
Qed.

Lemma limit_Forall {A} (P : A -> Prop) (n : Z) (l : list A) :
  Forall P l -> Forall P (Sql.limit n l).
Proof.
  intro H. revert n. induction H as [|x rest Hx _ IH]; intro n; simpl.
  - constructor.
  - destruct (n <=? 0); constructor; [exact Hx | apply IH].
Qed.

Lemma number_from_snd {A} (k : Z) (l : list A) :
  map snd (Sql.number_from k l) = l.
Proof.
  revert k. induction l as [|x rest IH]; intro k; simpl; [|rewrite IH]; reflexivity.
Qed.

Lemma number_from_fst {A} (k : Z) (l : list A) :
  map fst (Sql.number_from k l) = zseq k (List.length l).
Proof.
  revert k. induction l as [|x rest IH]; intro k; simpl; [|rewrite IH]; reflexivity.
Qed.

Lemma zseq_length k n : List.length (zseq k n) = n.
Proof. revert k. induction n; intro k; simpl; [|rewrite IHn]; reflexivity. Qed.

Lemma zseq_firstn k n m : firstn m (zseq k n) = zseq k (Nat.min m n).
Proof.
  revert k m. induction n as [|n IH]; intros k [|m]; simpl; try reflexivity.
  now rewrite IH.
Qed.

Lemma zseq_app k n m : zseq k (n + m) = zseq k n ++ zseq (k + Z.of_nat n) m.
Proof.
  revert k. induction n as [|n IH]; intro k.
  - simpl. now rewrite Z.add_0_r.
  - cbn [Nat.add zseq app]. rewrite IH. do 3 f_equal. lia.
Qed.

Lemma and3_true a b : Sql.and3 a b = Some true -> a = Some true /\ b = Some true.
Proof. destruct a as [[|]|], b as [[|]|]; simpl; intro H; try discriminate; auto. Qed.

Lemma between_double x lo hi :
  Sql.gt_double x (Sql.lit lo) = Some true ->
  Sql.lt_double x (Sql.lit hi) = Some true ->
  in_open lo hi x.
Proof.
  destruct x as [[| q | |]|]; simpl; try discriminate.
  intros Hgt Hlt. exists q. split; [reflexivity|].
  destruct (q ?= inject_Z lo)%Q eqn:Elo; try discriminate.
  destruct (q ?= inject_Z hi)%Q eqn:Ehi; try discriminate.
  split.
  - apply Qgt_alt in Elo. exact Elo.
  - apply Qlt_alt. exact Ehi.
Qed.

(** A row the WHERE clause keeps passes the filters once stored. *)
Lemma qualifies_passes id r : qualifies r = true -> passes_filters (trip_of_parquet id r).
Proof.
  unfold qualifies, where_clause, Sql.holds. intro H.
  match type of H with (match ?c with _ => _ end) = true =>
    assert (c = Some true) as H' by (destruct c as [[|]|]; congruence) end.
  clear H.
  apply and3_true in H' as [H' Hle]. apply and3_true in H' as [H' Hgt].
  apply and3_true in H' as [H' Hd2]. apply and3_true in H' as [H' Hd1].
  apply and3_true in H' as [Hf1 Hf2].
  repeat split; simpl.
  - apply between_double; assumption.
  - apply between_double; assumption.
  - destruct (Parquet.passenger_count r) as [n|]; [|discriminate].
    simpl in Hgt, Hle. exists n. split; [reflexivity|].
    injection Hgt as Hgt. injection Hle as Hle. lia.
Qed.

Lemma numbered_pass (g : Z -> option Z) k file :
  Forall passes_filters
    (map (fun nr => trip_of_parquet (g (fst nr)) (snd nr))
         (Sql.number_from k (filter qualifies file))).
Proof.
  apply Forall_forall. intros row Hin.
  apply in_map_iff in Hin as ([n r] & <- & Hin).
  apply qualifies_passes. simpl.
  assert (In r (filter qualifies file)) as Hr.
  { rewrite <- (number_from_snd k (filter qualifies file)).
    apply in_map_iff. exists (n, r). auto. }
  apply filter_In in Hr. tauto.
Qed.

Lemma select_first_passes file : Forall passes_filters (select_first file).
Proof.
  unfold select_first. apply limit_Forall.
  apply (numbered_pass (fun n => Some n)).
Qed.

Lemma select_next_passes table file : Forall passes_filters (select_next table file).
Proof.
  unfold select_next. apply limit_Forall.
  apply (numbered_pass (fun n => Sql.add_int (Some n) _)).
Qed.

Lemma append_months_passes w urls :
  forall table,
    Forall passes_filters table ->
    Forall passes_filters (append_months w urls table).
Proof.
  induction urls as [|url rest IH]; intros table Ht; simpl; [exact Ht|].
  apply IH. destruct (read_parquet w url) as [file|]; [|exact Ht].
  apply Forall_app. split; [exact Ht | apply select_next_passes].
Qed.

Lemma trips_after_passes w urls rows :
  snd (trips_after w urls) = Some rows -> Forall passes_filters rows.
Proof.
  unfold trips_after. destruct urls as [|u rest]; [discriminate|].
  destruct (read_parquet w u) as [file|]; [|discriminate].
  simpl. intros [= <-]. apply append_months_passes, select_first_passes.
Qed.

(* ================================================================= *)
(** ** Row counts *)

Lemma select_first_length file :
  Z.of_nat (List.length (select_first file)) <= 100000.
Proof. unfold select_first. apply limit_length. lia. Qed.

Lemma select_next_length table file :
  Z.of_nat (List.length (select_next table file)) <= 50000.
Proof. unfold select_next. apply limit_length. lia. Qed.

Lemma readable_length w urls :
  (List.length (readable w urls) <= List.length urls)%nat.
Proof.
  induction urls as [|url rest IH]; simpl; [lia|].
  destruct (read_parquet w url); simpl; lia.
Qed.

(** Each month that loads adds at most 50,000 rows; one that fails adds
    none. *)
Lemma append_months_length w urls :
  forall table,
    Z.of_nat (List.length (append_months w urls table))
    <= Z.of_nat (List.length table)
       + 50000 * Z.of_nat (List.length (readable w urls)).
Proof.
  induction urls as [|url rest IH]; intro table; simpl; [lia|].
  specialize (IH match read_parquet w url with
                 | Some file => table ++ select_next table file
                 | None => table
                 end).
  destruct (read_parquet w url) as [file|]; simpl; [|exact IH].
  rewrite length_app in IH. pose proof (select_next_length table file). simpl. lia.
Qed.

(* ================================================================= *)
(** ** The rows kept from each month *)

Lemma forget_numbered (g : Z -> option Z) cap k (rows : list Parquet.row) :
  map forget_id
    (Sql.limit cap
       (map (fun nr => trip_of_parquet (g (fst nr)) (snd nr))
            (Sql.number_from k rows)))
  = map (trip_of_parquet None) (Sql.limit cap rows).
Proof.
  rewrite <- !limit_map, map_map.
  rewrite <- (number_from_snd k rows) at 2. rewrite map_map. reflexivity.
Qed.

Lemma select_first_kept file : map forget_id (select_first file) = kept 100000 file.
Proof. apply (forget_numbered (fun n => Some n)). Qed.

Lemma select_next_kept table file :
  map forget_id (select_next table file) = kept 50000 file.
Proof. apply (forget_numbered (fun n => Sql.add_int (Some n) _)). Qed.

Lemma append_months_kept w urls :
  forall table,
    map forget_id (append_months w urls table)
    = map forget_id table ++ List.concat (map (kept 50000) (readable w urls)).
Proof.
  induction urls as [|url rest IH]; intro table; simpl.
  - now rewrite app_nil_r.
  - rewrite IH. destruct (read_parquet w url) as [file|]; simpl; [|reflexivity].
    now rewrite map_app, select_next_kept, <- app_assoc.
Qed.

(* ================================================================= *)
(** ** Trip ids *)

Lemma zseq_In k n x : In x (zseq k n) -> k <= x < k + Z.of_nat n.
Proof.
  revert k. induction n as [|n IH]; intros k; simpl; [tauto|].
  intros [<-|H]; [lia|]. apply IH in H. lia.
Qed.

Lemma zseq_NoDup k n : NoDup (zseq k n).
Proof.
  revert k. induction n as [|n IH]; intro k; simpl; constructor; [|apply IH].
  intro H. apply zseq_In in H. lia.
Qed.

Lemma Some_NoDup (l : list Z) : NoDup l -> NoDup (map Some l).
Proof.
  induction 1 as [|x l Hx _ IH]; simpl; constructor; [|exact IH].
  intro Hin. apply in_map_iff in Hin as (y & [= ->] & Hy). contradiction.
Qed.

Lemma zseq_shift m k n : map (fun x => x + m) (zseq k n) = zseq (k + m) n.
Proof.
  revert k. induction n as [|n IH]; intro k; simpl; [reflexivity|].
  rewrite IH. do 2 f_equal. lia.
Qed.

(** The ids a numbered, capped query yields, for any way [g] of turning
    the row number into the id. *)
Lemma ids_numbered (g : Z -> option Z) cap (rows : list Parquet.row) :
  let result :=
    Sql.limit cap
      (map (fun nr => trip_of_parquet (g (fst nr)) (snd nr))
           (Sql.row_number rows)) in
  map Trips.trip_id result = map g (zseq 1 (List.length result)).
Proof.
  intro result. subst result. unfold Sql.row_number.
  rewrite !limit_firstn, length_firstn, length_map.
  rewrite <- firstn_map, map_map. simpl.
  rewrite <- (map_map fst g), number_from_fst, firstn_map, zseq_firstn.
  do 2 f_equal.
  rewrite <- (length_map fst (Sql.number_from 1 rows)), number_from_fst.
  now rewrite zseq_length.
Qed.

Lemma select_first_sequential file : sequential (select_first file).
Proof. apply (ids_numbered (fun n => Some n)). Qed.

Lemma max_run a k n :
  a < k ->
  fold_left
    (fun acc v =>
       match acc, v with
       | None, _ => v
       | Some _, None => acc
       | Some a, Some b => Some (Z.max a b)
       end)
    (map Some (zseq k n)) (Some a)
  = Some (if Nat.eqb n 0 then a else k + Z.of_nat n - 1).
Proof.
  revert a k. induction n as [|n IH]; intros a k Hak; [reflexivity|].
  cbn [zseq map fold_left]. rewrite IH by lia.
  destruct n; cbn [Nat.eqb]; f_equal; lia.
Qed.

(** On a non-empty table with ids 1..n, [MAX(trip_id)] is n. *)
Lemma max_sequential table :
  sequential table -> table <> [] ->
  Sql.max_int (map Trips.trip_id table) = Some (Z.of_nat (List.length table)).
Proof.
  intros Hseq Hne. rewrite Hseq. destruct table as [|r rest]; [congruence|].
  unfold Sql.max_int. cbn [List.length zseq map fold_left].
  rewrite max_run by lia. f_equal.
  destruct (List.length rest); cbn [Nat.eqb]; lia.
Qed.

Lemma append_sequential table file :
  sequential table -> table <> [] ->
  sequential (table ++ select_next table file).
Proof.
  intros Hseq Hne. unfold sequential.
  rewrite map_app, length_app, zseq_app, map_app, <- Hseq. f_equal.
  unfold select_next. rewrite max_sequential by assumption.
  rewrite (ids_numbered
             (fun n => Sql.add_int (Some n) (Some (Z.of_nat (List.length table))))).
  cbn [Sql.add_int].
  rewrite <- (zseq_shift (Z.of_nat (List.length table))), map_map.
  reflexivity.
Qed.

Lemma append_months_sequential w urls :
  forall table,
    sequential table -> table <> [] ->
    sequential (append_months w urls table).
Proof.
  induction urls as [|url rest IH]; intros table Hseq Hne; simpl; [exact Hseq|].
  destruct (read_parquet w url) as [file|]; apply IH; try assumption.
  - now apply append_sequential.
  - destruct table; [congruence | discriminate].
Qed.

(* ================================================================= *)
(** ** Months and URLs *)

Lemma months_from a k :
  flat_map
    (fun i =>
       let month := i + 1 in
       if month <=? 12 then [(current_year, month)] else [])
    (map Z.of_nat (seq a k))
  = map (pair current_year) (zseq (Z.of_nat a + 1) (Nat.min k (12 - a))).
Proof.
  revert a. induction k as [|k IH]; intro a; [reflexivity|].
  cbn [seq map flat_map]. rewrite IH.
  destruct (Z.leb_spec (Z.of_nat a + 1) 12) as [Hle|Hgt].
  - replace (Nat.min (Datatypes.S k) (12 - a))
      with (Datatypes.S (Nat.min k (12 - Datatypes.S a))) by lia.
    cbn [zseq map app]. do 3 f_equal. lia.
  - replace (Nat.min (Datatypes.S k) (12 - a)) with O by lia.
    replace (Nat.min k (12 - Datatypes.S a)) with O by lia.
    reflexivity.
Qed.

(** The months are January 2024 onwards, at most twelve of them, and none
    for a count that is not positive. *)
Lemma months_of_eq n :
  months_of n = map (pair current_year) (zseq 1 (Nat.min (Z.to_nat n) 12)).
Proof. unfold months_of, range. now rewrite months_from, Nat.sub_0_r. Qed.

Lemma months_by_index a k :
  map (pair current_year) (zseq (Z.of_nat a + 1) k)
  = map (fun i => (2024, i + 1)) (map Z.of_nat (seq a k)).
Proof.
  revert a. induction k as [|k IH]; intro a; [reflexivity|].
  cbn [zseq seq map]. f_equal.
  replace (Z.of_nat a + 1 + 1) with (Z.of_nat (Datatypes.S a) + 1) by lia.
  apply IH.
Qed.

Lemma urls_of_length n : List.length (urls_of n) = Nat.min (Z.to_nat n) 12.
Proof. unfold urls_of. now rewrite months_of_eq, !length_map, zseq_length. Qed.

Lemma zseq_nth_error k n i :
  (i < n)%nat -> nth_error (zseq k n) i = Some (k + Z.of_nat i).
Proof.
  revert k i. induction n as [|n IH]; intros k [|i] Hi; try lia; simpl.
  - f_equal. lia.
  - rewrite IH by lia. f_equal. lia.
Qed.

Lemma url_of_month m :
  1 <= m <= 12 ->
  url_of (current_year, m)
  = ("https://d37ci6vzurychx.cloudfront.net/trip-data/yellow_tripdata_2024-"
       ++ two_digits m ++ ".parquet")%string.
Proof.
  intro H.
  assert (m = 1 \/ m = 2 \/ m = 3 \/ m = 4 \/ m = 5 \/ m = 6 \/ m = 7 \/ m = 8
          \/ m = 9 \/ m = 10 \/ m = 11 \/ m = 12) as Hm by lia.
  repeat (destruct Hm as [->|Hm]; [reflexivity|]). subst m. reflexivity.
Qed.

Lemma urls_of_nth n i :
  0 <= i < n -> i < 12 ->
  nth_error (urls_of n) (Z.to_nat i) = Some (url_of (current_year, i + 1)).
Proof.
  intros Hi Hi12. unfold urls_of. rewrite months_of_eq, map_map.
  erewrite map_nth_error; [reflexivity|].
  rewrite zseq_nth_error by lia. f_equal. lia.
Qed.

Lemma urls_of_first n :
  1 <= n -> urls_of n = url_of (current_year, 1) :: tl (urls_of n).
Proof.
  intro Hn. unfold urls_of. rewrite months_of_eq.
  replace (Nat.min (Z.to_nat n) 12)
    with (Datatypes.S (Nat.min (Z.to_nat n - 1) 11)) by lia.
  reflexivity.
Qed.

Lemma distinct_NoDup l : distinct l = true -> NoDup l.
Proof.
  induction l as [|x rest IH]; simpl; intro H; constructor;
    apply andb_prop in H as [Hx Hrest].
  - intro Hin. apply negb_true_iff in Hx.
    assert (existsb (String.eqb x) rest = true) as E; [|congruence].
    apply existsb_exists. exists x. split; [exact Hin | apply String.eqb_refl].
  - now apply IH.
Qed.

Lemma urls_of_NoDup n : NoDup (urls_of n).
Proof.
  unfold urls_of. rewrite months_of_eq.
  assert (Nat.min (Z.to_nat n) 12 <= 12)%nat as Hk by lia.
  revert Hk. generalize (Nat.min (Z.to_nat n) 12) as k. intros k Hk.
  do 13 (destruct k as [|k]; [apply distinct_NoDup; vm_compute; reflexivity|]).
  lia.
Qed.

(* ================================================================= *)
(** ** The prompt *)

Lemma ask_months_line w line s :
  ask_months w (Line line) s
  = if (str_strip w line =? "")%string then (Ret 3, s)
    else match int_of_str w (str_strip w line) with
         | Some n => (Ret (if n <? 1 then 1 else if 12 <? n then 12 else n), s)
         | None => (Ret 3, add_stdout UsingDefault s)
         end.
Proof.
  unfold ask_months, try_except_of, input, bind, ret, int.
  destruct (str_strip w line =? "")%string; [reflexivity|].
  destruct (int_of_str w (str_strip w line)) as [n|]; unfold ret, raise.
  - destruct (n <? 1); [reflexivity|]. destruct (12 <? n); reflexivity.
  - reflexivity.
Qed.

(** Whatever is typed and whatever [strip] and [int] make of it, a month
    count that reaches [setup_database] lies in 1..12, and the prompt
    writes to the output only. *)
Lemma ask_months_range w i s m s1 :
  ask_months w i s = (Ret m, s1) ->
  1 <= m <= 12 /\ exists o, s1 = mkState (zones s) (trips s) (tmp_csv s) (con_open s) o.
Proof.
  destruct s as [z t f c o]. destruct i as [line| |].
  - rewrite ask_months_line.
    destruct (str_strip w line =? "")%string.
    + intros [= <- <-]. split; [lia | eexists; reflexivity].
    + destruct (int_of_str w (str_strip w line)) as [n|]; intros [= <- <-].
      * split; [|eexists; reflexivity].
        destruct (Z.ltb_spec n 1); [lia|]. destruct (Z.ltb_spec 12 n); lia.
      * split; [lia | eexists; reflexivity].
  - intros [= <- <-]. split; [lia | eexists; reflexivity].
  - discriminate.
Qed.

Lemma ask_months_returns w i s :
  i <> EndOfFile -> exists m s1, ask_months w i s = (Ret m, s1).
Proof.
  intro Hi. destruct i as [line| |]; [| |congruence].
  - rewrite ask_months_line.
    destruct (str_strip w line =? "")%string;
      [|destruct (int_of_str w (str_strip w line))];
      do 2 eexists; reflexivity.
  - do 2 eexists. reflexivity.
Qed.

(** The exit code is 0 exactly when [setup_database] returns [True]. *)
Lemma main_exit_code w i s m s1 b s2 :
  ask_months w i s = (Ret m, s1) ->
  setup_database w m (add_stdout (WillLoad m) s1) = (Ret b, s2) ->
  fst (main w i s) = Ret (if b then 0 else 1).
Proof.
  intros Hask Hsetup. unfold main, bind at 1. rewrite Hask.
  unfold bind at 1, print at 1, modify at 1.
  unfold bind at 1. rewrite Hsetup. destruct b; reflexivity.
Qed.

(* ================================================================= *)
(** ** Consequences for a whole run *)

Lemma setup_database_value w n s :
  fst (setup_database w n s) = Ret (fst (trips_after w (urls_of n))).
Proof. destruct (setup_database_spec w n s) as (f' & out & -> & _). reflexivity. Qed.

Lemma setup_database_trips w n s :
  trips (snd (setup_database w n s)) = snd (trips_after w (urls_of n)).
Proof. destruct (setup_database_spec w n s) as (f' & out & -> & _). reflexivity. Qed.

Lemma setup_database_zones w n s :
  zones (snd (setup_database w n s)) = Some (zones_after w).
Proof. destruct (setup_database_spec w n s) as (f' & out & -> & _). reflexivity. Qed.

Lemma trips_after_first w n :
  1 <= n ->
  trips_after w (urls_of n)
  = match read_parquet w (url_of (current_year, 1)) with
    | None => (false, None)
    | Some file =>
        (df_ok w, Some (append_months w (tl (urls_of n)) (select_first file)))
    end.
Proof. intro Hn. rewrite (urls_of_first n Hn) at 1. reflexivity. Qed.

(** From the prompt on, the exit code depends only on January's file and
    on the reporting step. *)
Lemma main_value w i s :
  i <> EndOfFile ->
  fst (main w i s)
  = Ret match read_parquet w (url_of (current_year, 1)) with
        | None => 1
        | Some _ => if df_ok w then 0 else 1
        end.
Proof.
  intro Hi. destruct (ask_months_returns w i s Hi) as (m & s1 & Hask).
  destruct (ask_months_range w i s m s1 Hask) as [Hm _].
  destruct (setup_database w m (add_stdout (WillLoad m) s1)) as [r s2] eqn:Hsetup.
  pose proof (setup_database_value w m (add_stdout (WillLoad m) s1)) as Hv.
  rewrite Hsetup in Hv. simpl in Hv. subst r.
  rewrite (main_exit_code w i s m s1 _ s2 Hask Hsetup).
  rewrite trips_after_first by lia.
  destruct (read_parquet w (url_of (current_year, 1))); [|reflexivity].
  simpl. destruct (df_ok w); reflexivity.
Qed.

Lemma select_first_nonempty file :
  (exists r, In r file /\ qualifies r = true) -> select_first file <> [].
Proof.
  intros (r & Hin & Hq). unfold select_first, Sql.row_number.
  assert (In r (filter qualifies file)) as Hf by (apply filter_In; auto).
  destruct (filter qualifies file); [contradiction|]. discriminate.
Qed.

(* ================================================================= *)
(** ** The properties of the specification *)

(** C1, as amended: every row of [trips] at the end of a run, whatever
    the monthly files hold and whichever of them load, has a finite
    [fare_amount] strictly between 0 and 500, a finite [trip_distance]
    strictly between 0 and 100, and a [passenger_count] that is greater
    than 0 and at most 6. *)
Theorem stored_trips_pass_filters (w : world) (n : Z) (s : state) rows :
  trips (snd (setup_database w n s)) = Some rows ->
  Forall passes_filters rows.
Proof.
  rewrite setup_database_trips. apply trips_after_passes.
Qed.

Lemma stored_trips_pass_filters_witness :
  trips (snd (setup_database Sample.no_february 3 Sample.stale))
  = Some (append_months Sample.no_february [Sample.feb; Sample.mar]
            (select_first [Sample.ride 1 12; Sample.ride 3 30])) /\
  Forall passes_filters
    (append_months Sample.no_february [Sample.feb; Sample.mar]
       (select_first [Sample.ride 1 12; Sample.ride 3 30])).
Proof.
  assert (trips (snd (setup_database Sample.no_february 3 Sample.stale))
          = Some (append_months Sample.no_february [Sample.feb; Sample.mar]
                    (select_first [Sample.ride 1 12; Sample.ride 3 30]))) as H
    by (vm_compute; reflexivity).
  split; [exact H|].
  exact (stored_trips_pass_filters Sample.no_february 3 Sample.stale _ H).
Defined.

(** C1, as the specification words it, fails: a ride with exactly one
    passenger passes the WHERE clause ([passenger_count > 0]) and is
    stored, though 1 is outside the interval (1,6]. *)
Lemma single_passenger_ride_is_stored :
  exists rows,
    trips (snd (setup_database Sample.all_months 1 Sample.fresh)) = Some rows /\
    ~ Forall passes_filters_as_specified rows.
Proof.
  eexists. split; [vm_compute; reflexivity|].
  intro H. inversion H as [|row rest Hrow _]. subst.
  destruct Hrow as (_ & _ & k & Hk & Hlt). simpl in Hk.
  injection Hk as <-. lia.
Qed.

(** C2 fails on the code when the first month contributes no row: the
    table is then empty, [MAX(trip_id)] is NULL, and every row appended
    from the next month gets the id NULL.  Here January holds one ride
    with no passenger and February two good rides: the run succeeds and
    both stored rows carry the same NULL [trip_id]. *)
Theorem null_trip_ids_after_empty_first_month :
  exists s' rows,
    setup_database Sample.empty_january 2 Sample.fresh = (Ret true, s') /\
    trips s' = Some rows /\
    List.length rows = 2%nat /\
    map Trips.trip_id rows = [None; None] /\
    ~ NoDup (map Trips.trip_id rows).
Proof.
  do 2 eexists. split; [vm_compute; reflexivity|].
  split; [reflexivity|]. split; [reflexivity|]. split; [reflexivity|].
  intro H. inversion H as [|x l Hx _]. apply Hx. left. reflexivity.
Qed.

(** X1 (beside C2): once the first month contributes at least one row,
    the ids of the table are 1, 2, ..., in load order, whichever later
    months fail: they are unique and strictly increasing. *)
Theorem trip_ids_sequential (w : world) (n : Z) (s : state) file rows :
  read_parquet w (url_of (current_year, 1)) = Some file ->
  (exists r, In r file /\ qualifies r = true) ->
  trips (snd (setup_database w n s)) = Some rows ->
  map Trips.trip_id rows = map Some (zseq 1 (List.length rows)) /\
  NoDup (map Trips.trip_id rows).
Proof.
  intros Hfile Hq. rewrite setup_database_trips.
  destruct (Z.le_gt_cases 1 n) as [Hn|Hn].
  - rewrite trips_after_first, Hfile by exact Hn. simpl. intros [= <-].
    assert (sequential (append_months w (tl (urls_of n)) (select_first file))) as Hs.
    { apply append_months_sequential.
      - apply select_first_sequential.
      - now apply select_first_nonempty. }
    split; [exact Hs|]. rewrite Hs.
    apply Some_NoDup, zseq_NoDup.
  - pose proof (urls_of_length n) as Hl.
    replace (Nat.min (Z.to_nat n) 12) with O in Hl by lia.
    destruct (urls_of n); [discriminate|discriminate].
Qed.

Lemma trip_ids_sequential_witness :
  map Trips.trip_id
    (append_months Sample.no_february [Sample.feb; Sample.mar]
       (select_first [Sample.ride 1 12; Sample.ride 3 30]))
  = map Some (zseq 1 4).
Proof.
  refine (proj1 (trip_ids_sequential Sample.no_february 3 Sample.stale
                   [Sample.ride 1 12; Sample.ride 3 30] _ _ _ _)).
  - reflexivity.
  - exists (Sample.ride 1 12). split; [left; reflexivity | reflexivity].
  - vm_compute. reflexivity.
Defined.

(** C3: when January's file cannot be loaded, the run ends with no trips
    table, [setup_database] returns [False] and the process exits with
    code 1.  When January loads (and nothing but later months' loads
    goes wrong), [setup_database] returns [True], the trips table holds,
    ids apart, January's kept rows followed by the kept rows of each
    later month that loaded, in order, a failed month adding nothing; the
    verification line of the reporting step is printed during the run,
    and the process exits with code 0. *)
Theorem first_month_failure_aborts_later_failure_skips
        (w : world) (n : Z) (s : state) :
  1 <= n ->
  (read_parquet w (url_of (current_year, 1)) = None ->
   (exists s', setup_database w n s = (Ret false, s') /\ trips s' = None) /\
   (forall i, i <> EndOfFile -> fst (main w i s) = Ret 1))
  /\
  (forall file,
     read_parquet w (url_of (current_year, 1)) = Some file ->
     df_ok w = true ->
     (exists s' rows out,
        setup_database w n s = (Ret true, s') /\
        trips s' = Some rows /\
        map forget_id rows
        = kept 100000 file
            ++ List.concat (map (kept 50000) (readable w (tl (urls_of n)))) /\
        stdout s' = stdout s ++ out /\
        In (Verified (Z.of_nat (List.length rows))
                     (Z.of_nat (List.length (zones_after w)))) out) /\
     (forall i, i <> EndOfFile -> fst (main w i s) = Ret 0)).
Proof.
  intro Hn.
  destruct (setup_database_spec w n s) as (f' & out & E & Hreport).
  rewrite trips_after_first in E, Hreport by exact Hn.
  split.
  - intro Hnone. rewrite Hnone in E. split.
    + eexists. split; [exact E | reflexivity].
    + intros i Hi. now rewrite main_value, Hnone.
  - intros file Hsome Hdf. rewrite Hsome, Hdf in E, Hreport. simpl in E, Hreport.
    split.
    + destruct (Hreport eq_refl) as (rows & [= <-] & Hin).
      do 3 eexists. split; [exact E|]. split; [reflexivity|].
      split; [|split; [reflexivity | exact Hin]].
      now rewrite append_months_kept, select_first_kept.
    + intros i Hi. now rewrite main_value, Hsome, Hdf.
Qed.

Lemma first_month_failure_aborts_later_failure_skips_witness :
  (1 <= 3 /\ read_parquet Sample.no_january (url_of (current_year, 1)) = None) /\
  (exists s', setup_database Sample.no_january 3 Sample.stale = (Ret false, s')
              /\ trips s' = None) /\
  (read_parquet Sample.no_february (url_of (current_year, 1))
   = Some [Sample.ride 1 12; Sample.ride 3 30]
   /\ df_ok Sample.no_february = true) /\
  fst (main Sample.no_february (Line "3") Sample.stale) = Ret 0.
Proof.
  assert (1 <= 3) as H3 by lia.
  split; [split; [exact H3 | reflexivity]|].
  split.
  - exact (proj1 (proj1 (first_month_failure_aborts_later_failure_skips
                           Sample.no_january 3 Sample.stale H3) eq_refl)).
  - split; [split; reflexivity|].
    refine (proj2 (proj2 (first_month_failure_aborts_later_failure_skips
                            Sample.no_february 3 Sample.stale H3)
                         _ eq_refl eq_refl) (Line "3") _).
    discriminate.
Defined.

(** C4: for a month count N from 1 to 12, [setup_database] builds exactly
    N URLs, pairwise distinct, for the months January 2024, February
    2024, ... in order; the i-th one (from 0) is the fixed prefix followed
    by [yellow_tripdata_2024-], the two-digit month i+1 and [.parquet].
    For N = 1 the list is the one URL of 2024-01. *)
Theorem urls_cover_consecutive_months (N : Z) :
  1 <= N <= 12 ->
  List.length (urls_of N) = Z.to_nat N /\
  NoDup (urls_of N) /\
  months_of N = map (fun i => (2024, i + 1)) (range N) /\
  (forall i, 0 <= i < N ->
     nth_error (urls_of N) (Z.to_nat i)
     = Some ("https://d37ci6vzurychx.cloudfront.net/trip-data/yellow_tripdata_2024-"
               ++ two_digits (i + 1) ++ ".parquet")%string) /\
  (N = 1 ->
   urls_of N
   = ["https://d37ci6vzurychx.cloudfront.net/trip-data/yellow_tripdata_2024-01.parquet"%string]).
Proof.
  intro HN. split; [|split; [|split; [|split]]].
  - rewrite urls_of_length. lia.
  - apply urls_of_NoDup.
  - rewrite months_of_eq. unfold range.
    replace (Nat.min (Z.to_nat N) 12) with (Z.to_nat N) by lia.
    apply (months_by_index 0).
  - intros i Hi. rewrite urls_of_nth by lia. f_equal.
    apply url_of_month. lia.
  - intros ->. reflexivity.
Qed.

Lemma urls_cover_consecutive_months_witness :
  1 <= 3 <= 12 /\
  urls_of 3 = [Sample.jan; Sample.feb; Sample.mar] /\
  NoDup (urls_of 3).
Proof.
  assert (1 <= 3 <= 12) as H by lia.
  split; [exact H|]. split; [reflexivity|].
  exact (proj1 (proj2 (urls_cover_consecutive_months 3 H))).
Defined.

(** C5: the statement that creates [trips] stores at most 100,000 rows;
    each INSERT of a later month adds at most 50,000; so after a run on N
    months (N from 1 to 12) the table holds at most
    100,000 + 50,000 * (N - 1) rows. *)
Theorem trips_row_caps (w : world) (N : Z) (s : state) rows :
  1 <= N <= 12 ->
  trips (snd (setup_database w N s)) = Some rows ->
  (forall url s0 s1 created,
     create_trips_as w url s0 = (Ret tt, s1) ->
     trips s1 = Some created ->
     Z.of_nat (List.length created) <= 100000) /\
  (forall url s0 s1 before after,
     insert_into_trips w url s0 = (Ret tt, s1) ->
     trips s0 = Some before ->
     trips s1 = Some after ->
     Z.of_nat (List.length after) <= Z.of_nat (List.length before) + 50000) /\
  Z.of_nat (List.length rows) <= 100000 + 50000 * (N - 1).
Proof.
  intros HN Hrows. split; [|split].
  - intros url [z0 t0 f0 c0 o0] s1 created. unfold create_trips_as. run.
    destruct t0; [discriminate|].
    destruct (read_parquet w url) as [file|]; [|discriminate].
    intros [= <-] [= <-]. apply select_first_length.
  - intros url [z0 t0 f0 c0 o0] s1 before after. unfold insert_into_trips. run.
    destruct t0 as [table|]; [|discriminate].
    destruct (read_parquet w url) as [file|]; [|discriminate].
    intros [= <-] [= <-] [= <-].
    rewrite length_app. pose proof (select_next_length table file). lia.
  - rewrite setup_database_trips, trips_after_first in Hrows by lia.
    destruct (read_parquet w (url_of (current_year, 1))) as [file|];
      [|discriminate].
    simpl in Hrows. injection Hrows as <-.
    pose proof (append_months_length w (tl (urls_of N)) (select_first file)) as Hlen.
    pose proof (select_first_length file) as Hfirst.
    pose proof (readable_length w (tl (urls_of N))) as Hread.
    pose proof (urls_of_length N) as Hurls.
    rewrite (urls_of_first N) in Hurls by lia. simpl in Hurls.
    nia.
Qed.

Lemma trips_row_caps_witness :
  (1 <= 3 <= 12 /\
   trips (snd (setup_database Sample.all_months 3 Sample.fresh))
   = Some (append_months Sample.all_months [Sample.feb; Sample.mar]
             (select_first [Sample.ride 1 12; Sample.ride 2 (-4)]))) /\
  Z.of_nat (List.length
              (append_months Sample.all_months [Sample.feb; Sample.mar]
                 (select_first [Sample.ride 1 12; Sample.ride 2 (-4)])))
  <= 100000 + 50000 * (3 - 1).
Proof.
  assert (1 <= 3 <= 12) as H by lia.
  assert (trips (snd (setup_database Sample.all_months 3 Sample.fresh))
          = Some (append_months Sample.all_months [Sample.feb; Sample.mar]
                    (select_first [Sample.ride 1 12; Sample.ride 2 (-4)]))) as Ht
    by (vm_compute; reflexivity).
  split; [split; [exact H | exact Ht]|].
  exact (proj2 (proj2 (trips_row_caps Sample.all_months 3 Sample.fresh _ H Ht))).
Defined.

(** C6: when [download_zone_lookup] returns [False], or the statement
    that loads the downloaded CSV raises, the zones table at the end of
    the run is exactly the hard-coded list [zones_data], 38 rows,
    whatever else happens in the run. *)
Theorem fallback_zones_on_failure (w : world) (n : Z) (s : state) :
  fst (download_zone_lookup w (set_con_open true s)) = Ret false \/
  (exists e, fst (create_zones_from_csv (before_zones_load w s)) = Exc e) ->
  zones (snd (setup_database w n s)) = Some zones_data /\
  List.length zones_data = 38%nat.
Proof.
  intro H. split; [|reflexivity].
  rewrite setup_database_zones. f_equal. unfold zones_after.
  destruct H as [H|[e H]].
  - apply download_zone_lookup_false in H. now rewrite H.
  - unfold before_zones_load, download_zone_lookup in H.
    destruct (zone_lookup_response w) as [[rows|]|]; try reflexivity.
    discriminate H.
Qed.

Lemma fallback_zones_on_failure_witness :
  fst (download_zone_lookup Sample.no_january (set_con_open true Sample.stale))
  = Ret false /\
  fst (create_zones_from_csv (before_zones_load Sample.bad_lookup Sample.fresh))
  = Exc DuckDBError /\
  zones (snd (setup_database Sample.no_january 2 Sample.stale)) = Some zones_data /\
  zones (snd (setup_database Sample.bad_lookup 2 Sample.fresh)) = Some zones_data.
Proof.
  split; [reflexivity|]. split; [reflexivity|]. split.
  - exact (proj1 (fallback_zones_on_failure Sample.no_january 2 Sample.stale
                    (or_introl eq_refl))).
  - exact (proj1 (fallback_zones_on_failure Sample.bad_lookup 2 Sample.fresh
                    (or_intror (ex_intro _ DuckDBError eq_refl)))).
Defined.

(** C7: when the download succeeds and the file holds K well-formed rows,
    the zones table at the end of the run has K rows, the i-th being the
    i-th row of the file with LocationID as location_id, Zone as
    zone_name, Borough as borough and service_zone unchanged. *)
Theorem downloaded_zones_renamed (w : world) (n : Z) (s : state) rows :
  zone_lookup_response w = Some (CsvRows rows) ->
  exists table,
    zones (snd (setup_database w n s)) = Some table /\
    List.length table = List.length rows /\
    Forall2
      (fun src z =>
         Zones.location_id z = Csv.LocationID src /\
         Zones.zone_name z = Csv.Zone src /\
         Zones.borough z = Csv.Borough src /\
         Zones.service_zone z = Csv.service_zone src)
      rows table.
Proof.
  intro H. exists (map zone_of_csv rows).
  rewrite setup_database_zones. unfold zones_after. rewrite H.
  split; [reflexivity|]. split; [apply length_map|].
  clear H. induction rows as [|r rest IH]; simpl; constructor.
  - unfold zone_of_csv. simpl. auto.
  - exact IH.
Qed.

Lemma downloaded_zones_renamed_witness :
  zone_lookup_response Sample.with_lookup = Some (CsvRows Sample.lookup) /\
  exists table,
    zones (snd (setup_database Sample.with_lookup 1 Sample.stale)) = Some table /\
    List.length table = 3%nat.
Proof.
  split; [reflexivity|].
  destruct (downloaded_zones_renamed Sample.with_lookup 1 Sample.stale
              Sample.lookup eq_refl) as (table & Hz & Hlen & _).
  exists table. split; [exact Hz | exact Hlen].
Defined.

(** C8: at the prompt, a line that is empty once stripped, a line [int]
    rejects, or an interrupt give the month count 3; a number below 1
    gives 1 and a number above 12 gives 12 (one from 1 to 12 is kept);
    the process then exits with 0 when [setup_database] returns [True]
    and with 1 when it returns [False].  This holds whatever strings the
    interpreter's [strip] and [int] return and accept. *)
Theorem prompt_defaults_and_exit_code (w : world) (s : state) (line : string) (k : Z) :
  (str_strip w line = ""%string -> fst (ask_months w (Line line) s) = Ret 3) /\
  (int_of_str w (str_strip w line) = None ->
   fst (ask_months w (Line line) s) = Ret 3) /\
  fst (ask_months w Interrupt s) = Ret 3 /\
  (str_strip w line <> ""%string ->
   int_of_str w (str_strip w line) = Some k -> k < 1 ->
   fst (ask_months w (Line line) s) = Ret 1) /\
  (str_strip w line <> ""%string ->
   int_of_str w (str_strip w line) = Some k -> 12 < k ->
   fst (ask_months w (Line line) s) = Ret 12) /\
  (str_strip w line <> ""%string ->
   int_of_str w (str_strip w line) = Some k -> 1 <= k <= 12 ->
   fst (ask_months w (Line line) s) = Ret k) /\
  (forall i m s1 b s2,
     ask_months w i s = (Ret m, s1) ->
     setup_database w m (add_stdout (WillLoad m) s1) = (Ret b, s2) ->
     fst (main w i s) = Ret (if b then 0 else 1)).
Proof.
  rewrite ask_months_line.
  split; [|split; [|split; [|split; [|split; [|split]]]]].
  - intros ->. reflexivity.
  - intros ->. destruct (str_strip w line =? "")%string; reflexivity.
  - reflexivity.
  - intros Hne -> Hk. rewrite (proj2 (String.eqb_neq _ _) Hne). simpl.
    destruct (Z.ltb_spec k 1); [reflexivity | lia].
  - intros Hne -> Hk. rewrite (proj2 (String.eqb_neq _ _) Hne). simpl.
    destruct (Z.ltb_spec k 1); [lia|].
    destruct (Z.ltb_spec 12 k); [reflexivity | lia].
  - intros Hne -> Hk. rewrite (proj2 (String.eqb_neq _ _) Hne). simpl.
    destruct (Z.ltb_spec k 1); [lia|].
    destruct (Z.ltb_spec 12 k); [lia | reflexivity].
  - intros i m s1 b s2. apply main_exit_code.
Qed.

Lemma prompt_defaults_and_exit_code_witness :
  fst (ask_months Sample.all_months (Line "  ") Sample.fresh) = Ret 3 /\
  fst (ask_months Sample.all_months (Line "three") Sample.fresh) = Ret 3 /\
  fst (ask_months Sample.all_months (Line " -2") Sample.fresh) = Ret 1 /\
  fst (ask_months Sample.all_months (Line "40 ") Sample.fresh) = Ret 12 /\
  fst (main Sample.no_january (Line "2") Sample.fresh) = Ret 1 /\
  fst (main Sample.all_months Interrupt Sample.fresh) = Ret 0.
Proof.
  split; [|split; [|split; [|split; [|split]]]].
  - exact (proj1 (prompt_defaults_and_exit_code Sample.all_months Sample.fresh "  " 0)
             eq_refl).
  - exact (proj1 (proj2 (prompt_defaults_and_exit_code
                           Sample.all_months Sample.fresh "three" 0)) eq_refl).
  - refine (proj1 (proj2 (proj2 (proj2 (prompt_defaults_and_exit_code
                           Sample.all_months Sample.fresh " -2" (-2))))) _ eq_refl _).
    + discriminate.
    + lia.
  - refine (proj1 (proj2 (proj2 (proj2 (proj2 (prompt_defaults_and_exit_code
                           Sample.all_months Sample.fresh "40 " 40))))) _ eq_refl _).
    + discriminate.
    + lia.
  - refine (proj2 (proj2 (proj2 (proj2 (proj2 (proj2 (prompt_defaults_and_exit_code
                           Sample.no_january Sample.fresh "" 0))))))
              (Line "2") 2 _ false _ eq_refl _).
    vm_compute. reflexivity.
  - refine (proj2 (proj2 (proj2 (proj2 (proj2 (proj2 (prompt_defaults_and_exit_code
                           Sample.all_months Sample.fresh "" 0))))))
              Interrupt 3 _ true _ eq_refl _).
    vm_compute. reflexivity.
Defined.

(** C9: called with a month count that is not positive, [setup_database]
    builds no URL, [urls[0]] raises [IndexError], the run ends with no
    trips table and the value [False].  [setup_database] bounds the
    number of months from above only (never more than 12 URLs, exactly
    12 for a count above 12); the count it gets from the prompt is
    always within 1..12. *)
Theorem nonpositive_month_count_fails (w : world) (n : Z) (s : state) :
  n <= 0 ->
  urls_of n = [] /\
  (forall s0, first_of (urls_of n) s0 = (Exc IndexError, s0)) /\
  (exists s', setup_database w n s = (Ret false, s') /\ trips s' = None) /\
  (forall m, (List.length (urls_of m) <= 12)%nat) /\
  (forall m, 12 < m -> List.length (urls_of m) = 12%nat) /\
  (forall i m s1, ask_months w i s = (Ret m, s1) -> 1 <= m <= 12).
Proof.
  intro Hn.
  assert (urls_of n = []) as Hurls.
  { pose proof (urls_of_length n) as Hl.
    replace (Nat.min (Z.to_nat n) 12) with O in Hl by lia.
    destruct (urls_of n); [reflexivity | discriminate]. }
  split; [exact Hurls|]. split; [|split; [|split; [|split]]].
  - intro s0. rewrite Hurls. reflexivity.
  - destruct (setup_database_spec w n s) as (f' & out & E & _).
    rewrite Hurls in E. eexists. split; [exact E | reflexivity].
  - intro m. rewrite urls_of_length. lia.
  - intros m Hm. rewrite urls_of_length. lia.
  - intros i m s1 H. exact (proj1 (ask_months_range w i s m s1 H)).
Qed.

Lemma nonpositive_month_count_fails_witness :
  0 <= 0 /\
  exists s', setup_database Sample.all_months 0 Sample.stale = (Ret false, s')
             /\ trips s' = None.
Proof.
  assert (0 <= 0) as H by lia. split; [exact H|].
  exact (proj1 (proj2 (proj2 (nonpositive_month_count_fails
                                Sample.all_months 0 Sample.stale H)))).
Defined.

(** C10: [setup_database] always returns, with [True] or with [False];
    either way the connection is closed by then, and the zones table is
    the one the zones block left, untouched by the trips block. *)
Theorem zones_kept_and_connection_closed (w : world) (n : Z) (s : state) :
  exists b s',
    setup_database w n s = (Ret b, s') /\
    con_open s' = false /\
    zones s' = zones (snd (load_zones w (set_con_open true s))) /\
    zones s' = Some (zones_after w).
Proof.
  destruct (setup_database_spec w n s) as (f' & out & E & _).
  do 2 eexists. split; [exact E|]. split; [reflexivity|].
  split; [|reflexivity].
  destruct s as [z t f c o]. unfold set_con_open. simpl.
  destruct (load_zones_spec w z t f true o) as (f1 & o1 & ->). reflexivity.
Qed.

(** A failed run on a database left by an earlier one: the stale trips
    table is gone, the zones are the fresh fallback rows, the connection
    is closed. *)
Example failed_run_keeps_zones :
  exists s',
    setup_database Sample.no_january 3 Sample.stale = (Ret false, s') /\
    zones s' = Some zones_data /\ trips s' = None /\ con_open s' = false.
Proof.
  eexists. split; [vm_compute; reflexivity|]. repeat split.
Qed.

(* ================================================================= *)
(** ** Further properties of the script *)

(** *** Runs on an existing database *)

(** X2: a run discards what the database held before: the value
    [setup_database] returns, the two tables it leaves and the closed
    connection are the same whatever the initial tables, temporary file
    and connection state were. *)
Theorem rerun_discards_prior_contents (w : world) (n : Z) (s1 s2 : state) :
  fst (setup_database w n s1) = fst (setup_database w n s2) /\
  zones (snd (setup_database w n s1)) = zones (snd (setup_database w n s2)) /\
  trips (snd (setup_database w n s1)) = trips (snd (setup_database w n s2)) /\
  con_open (snd (setup_database w n s1)) = con_open (snd (setup_database w n s2)).
Proof.
  destruct (setup_database_spec w n s1) as (f1 & o1 & -> & _).
  destruct (setup_database_spec w n s2) as (f2 & o2 & -> & _).
  repeat split.
Qed.

(** X3: a month count of 12 or more is the same run as a count of 12:
    the same URLs, and the same result on the same initial state. *)
Theorem month_count_above_twelve_acts_as_twelve (w : world) (n : Z) (s : state) :
  12 <= n ->
  urls_of n = urls_of 12 /\
  setup_database w n s = setup_database w 12 s.
Proof.
  intro Hn.
  assert (months_of n = months_of 12) as Hm.
  { rewrite !months_of_eq. do 2 f_equal. lia. }
  split.
  - unfold urls_of. now rewrite Hm.
  - unfold setup_database, load_trips. now rewrite Hm.
Qed.

Lemma month_count_above_twelve_acts_as_twelve_witness :
  12 <= 40 /\
  setup_database Sample.all_months 40 Sample.stale
  = setup_database Sample.all_months 12 Sample.stale.
Proof.
  assert (12 <= 40) as H by lia. split; [exact H|].
  exact (proj2 (month_count_above_twelve_acts_as_twelve
                  Sample.all_months 40 Sample.stale H)).
Defined.

(** *** The fallback zones *)

(** X4: [create_minimal_zones] works exactly when the database has no
    zones table: it then leaves [zones_data] and changes nothing else but
    the output; on a database that has one, its CREATE TABLE raises and
    the database is left as it was. *)
Theorem create_minimal_zones_needs_absent_table (s : state) :
  (zones s = None ->
   create_minimal_zones s
   = (Ret tt,
      mkState (Some zones_data) (trips s) (tmp_csv s) (con_open s)
              (stdout s ++ [MinimalZonesCreated 38]))) /\
  (zones s <> None -> create_minimal_zones s = (Exc DuckDBError, s)) /\
  (fst (create_minimal_zones s) = Ret tt <-> zones s = None).
Proof.
  destruct s as [[z|] t f c o]; simpl zones.
  - assert (create_minimal_zones (mkState (Some z) t f c o)
            = (Exc DuckDBError, mkState (Some z) t f c o)) as E by reflexivity.
    split; [discriminate|]. split; [intros _; exact E|].
    rewrite E. split; discriminate.
  - rewrite create_minimal_zones_fresh.
    split; [reflexivity|]. split; [congruence|]. split; reflexivity.
Qed.

(** *** The process *)

(** X6: the [__main__] block ends in one of three ways: on end of input
    at the prompt the [EOFError] is not caught and nothing has been done
    (no connection opened, no table touched); on any other input the
    process exits with code 0 or 1, the connection closed. *)
Theorem main_exits_or_dies_at_prompt (w : world) (i : stdin) (s : state) :
  (i = EndOfFile /\ main w i s = (Exc EOFError, s)) \/
  (i <> EndOfFile /\
   exists code s',
     main w i s = (Ret code, s') /\ (code = 0 \/ code = 1) /\ con_open s' = false).
Proof.
  assert (i <> EndOfFile ->
          exists code s',
            main w i s = (Ret code, s') /\ (code = 0 \/ code = 1)
            /\ con_open s' = false) as Hrun.
  { intro Hi. destruct (ask_months_returns w i s Hi) as (m & s1 & Hask).
    destruct (setup_database_spec w m (add_stdout (WillLoad m) s1))
      as (f' & out & E & _).
    unfold main, bind. rewrite Hask. unfold print at 1, modify at 1.
    rewrite E.
    destruct (fst (trips_after w (urls_of m)));
      do 2 eexists; (split; [reflexivity|]); (split; [|reflexivity]); auto. }
  destruct i as [line| |].
  - right. split; [discriminate | apply Hrun; discriminate].
  - right. split; [discriminate | apply Hrun; discriminate].
  - left. split; reflexivity.
Qed.

(** *** The WHERE clause *)

(** X8: the WHERE clause keeps exactly the rows that pass the filters: a
    row is kept if and only if its fare is a finite number strictly
    between 0 and 500, its distance a finite number strictly between 0
    and 100 and its passenger count an integer from 1 to 6; a NULL in any
    of the three columns, a NaN or an infinity drops the row. *)
Theorem where_clause_keeps_exactly_passing_rows (id : option Z) (r : Parquet.row) :
  qualifies r = true <-> passes_filters (trip_of_parquet id r).
Proof.
  split; [apply qualifies_passes|].
  intros ((q & Hf & Hq1 & Hq2) & (d & Hd & Hd1 & Hd2) & (k & Hk & Hk1)).
  simpl in Hf, Hd, Hk.
  unfold qualifies, where_clause. rewrite Hf, Hd, Hk.
  unfold Sql.gt_double, Sql.lt_double, Sql.gt_int, Sql.le_int, Sql.lit.
  cbn [option_map Sql.double_compare].
  rewrite (proj1 (Qgt_alt q (inject_Z 0)) Hq1), (proj1 (Qlt_alt q (inject_Z 500)) Hq2).
  rewrite (proj1 (Qgt_alt d (inject_Z 0)) Hd1), (proj1 (Qlt_alt d (inject_Z 100)) Hd2).
  replace (0 <? k) with true by (symmetry; apply Z.ltb_lt; lia).
  replace (k <=? 6) with true by (symmetry; apply Z.leb_le; lia).
  reflexivity.
Qed.

(** *** What the trips table holds *)

Lemma limit_all {A} (n : Z) (l : list A) :
  Z.of_nat (List.length l) <= n -> Sql.limit n l = l.
Proof.
  intro H. rewrite limit_firstn. apply firstn_all2. lia.
Qed.

Lemma kept_uncapped cap file :
  Z.of_nat (List.length (filter qualifies file)) <= cap ->
  kept cap file = map (trip_of_parquet None) (filter qualifies file).
Proof. intro H. unfold kept. now rewrite limit_all. Qed.

(** X9: when no cap is reached (at most 100,000 qualifying rows in
    January's file and at most 50,000 in each later file that loads), the
    trips table holds, ids apart, exactly the qualifying rows of January
    followed by those of each later month that loaded, in file order:
    nothing that passes the filters is dropped. *)
Theorem uncapped_run_keeps_every_qualifying_row
        (w : world) (n : Z) (s : state) file :
  1 <= n ->
  read_parquet w (url_of (current_year, 1)) = Some file ->
  Z.of_nat (List.length (filter qualifies file)) <= 100000 ->
  Forall (fun later => Z.of_nat (List.length (filter qualifies later)) <= 50000)
         (readable w (tl (urls_of n))) ->
  exists rows,
    trips (snd (setup_database w n s)) = Some rows /\
    map forget_id rows
    = map (trip_of_parquet None)
          (filter qualifies (file ++ List.concat (readable w (tl (urls_of n))))).
Proof.
  intros Hn Hfile Hcap Hcaps.
  rewrite setup_database_trips, trips_after_first, Hfile by exact Hn.
  eexists. split; [reflexivity|].
  rewrite append_months_kept, select_first_kept, kept_uncapped by exact Hcap.
  rewrite filter_app, map_app. f_equal.
  induction Hcaps as [|later rest Hlater _ IH]; [reflexivity|].
  cbn [map List.concat]. rewrite filter_app, map_app, IH, kept_uncapped by exact Hlater.
  reflexivity.
Qed.

Lemma uncapped_run_keeps_every_qualifying_row_witness :
  exists rows,
    trips (snd (setup_database Sample.no_february 3 Sample.stale)) = Some rows /\
    map forget_id rows
    = map (trip_of_parquet None)
          [Sample.ride 1 12; Sample.ride 3 30; Sample.ride 1 12; Sample.ride 3 30].
Proof.
  refine (uncapped_run_keeps_every_qualifying_row
            Sample.no_february 3 Sample.stale
            [Sample.ride 1 12; Sample.ride 3 30] _ eq_refl _ _).
  - lia.
  - vm_compute. discriminate.
  - repeat constructor. vm_compute. discriminate.
Defined.

Lemma append_months_app w urls1 urls2 table :
  append_months w (urls1 ++ urls2) table
  = append_months w urls2 (append_months w urls1 table).
Proof.
  revert table. induction urls1 as [|url rest IH]; intro table; simpl;
    [reflexivity | apply IH].
Qed.

Lemma append_months_extends w urls table :
  exists extra, append_months w urls table = table ++ extra.
Proof.
  revert table. induction urls as [|url rest IH]; intro table; simpl.
  - exists []. now rewrite app_nil_r.
  - destruct (read_parquet w url) as [file|]; [|apply IH].
    destruct (IH (table ++ select_next table file)) as [extra E].
    exists (select_next table file ++ extra). now rewrite E, app_assoc.
Qed.

Lemma urls_of_grow n m :
  n <= m -> exists more, urls_of m = urls_of n ++ more.
Proof.
  intro H. unfold urls_of. rewrite !months_of_eq.
  replace (Nat.min (Z.to_nat m) 12)
    with (Nat.min (Z.to_nat n) 12
          + (Nat.min (Z.to_nat m) 12 - Nat.min (Z.to_nat n) 12))%nat by lia.
  rewrite zseq_app, !map_app. eexists. reflexivity.
Qed.

(** X10: asking for more months only appends: in the same environment,
    the table of a run on m months starts with the whole table of a run
    on n <= m months, row for row and id for id. *)
Theorem more_months_only_append
        (w : world) (n m : Z) (s1 s2 : state) rows_n rows_m :
  n <= m ->
  trips (snd (setup_database w n s1)) = Some rows_n ->
  trips (snd (setup_database w m s2)) = Some rows_m ->
  exists extra, rows_m = rows_n ++ extra.
Proof.
  intros Hnm. rewrite !setup_database_trips.
  destruct (urls_of_grow n m Hnm) as [more ->].
  unfold trips_after. destruct (urls_of n) as [|first_url rest]; [discriminate|].
  cbn [app]. destruct (read_parquet w first_url) as [file|]; [|discriminate].
  simpl. intros [= <-] [= <-]. rewrite append_months_app.
  apply append_months_extends.
Qed.

Lemma more_months_only_append_witness :
  exists extra,
    append_months Sample.no_february [Sample.feb; Sample.mar]
      (select_first [Sample.ride 1 12; Sample.ride 3 30])
    = select_first [Sample.ride 1 12; Sample.ride 3 30] ++ extra.
Proof.
  refine (more_months_only_append Sample.no_february 1 3 Sample.fresh Sample.stale
            _ _ _ _ _).
  - lia.
  - vm_compute. reflexivity.
  - vm_compute. reflexivity.
Defined.

Lemma max_int_all_null col :
  Forall (fun v => v = None) col -> Sql.max_int col = None.
Proof.
  unfold Sql.max_int. induction 1 as [|v col -> _ IH]; [reflexivity | exact IH].
Qed.

Lemma select_next_null_ids table file :
  Forall (fun r => Trips.trip_id r = None) table ->
  Forall (fun r => Trips.trip_id r = None) (select_next table file).
Proof.
  intro H. unfold select_next. rewrite max_int_all_null.
  - apply limit_Forall, Forall_forall. intros r Hin.
    apply in_map_iff in Hin as (nr & <- & _). reflexivity.
  - apply Forall_forall. intros v Hv.
    apply in_map_iff in Hv as (r & <- & Hr).
    revert r Hr. now apply Forall_forall.
Qed.

Lemma append_months_null_ids w urls :
  forall table,
    Forall (fun r => Trips.trip_id r = None) table ->
    Forall (fun r => Trips.trip_id r = None) (append_months w urls table).
Proof.
  induction urls as [|url rest IH]; intros table H; simpl; [exact H|].
  apply IH. destruct (read_parquet w url) as [file|]; [|exact H].
  apply Forall_app. split; [exact H | now apply select_next_null_ids].
Qed.

(** X11: when January's file loads but none of its rows passes the
    filters, every row the later months add is stored with a NULL
    [trip_id], however many months follow. *)
Theorem empty_first_month_leaves_only_null_ids
        (w : world) (n : Z) (s : state) file rows :
  read_parquet w (url_of (current_year, 1)) = Some file ->
  filter qualifies file = [] ->
  trips (snd (setup_database w n s)) = Some rows ->
  Forall (fun r => Trips.trip_id r = None) rows.
Proof.
  intros Hfile Hnone. rewrite setup_database_trips.
  destruct (Z.le_gt_cases 1 n) as [Hn|Hn].
  - rewrite trips_after_first, Hfile by exact Hn. simpl. intros [= <-].
    apply append_months_null_ids. unfold select_first. rewrite Hnone.
    constructor.
  - pose proof (urls_of_length n) as Hl.
    replace (Nat.min (Z.to_nat n) 12) with O in Hl by lia.
    destruct (urls_of n); discriminate.
Qed.

Lemma empty_first_month_leaves_only_null_ids_witness :
  Forall (fun r => Trips.trip_id r = None)
    (append_months Sample.empty_january [Sample.feb; Sample.mar]
       (select_first [Sample.ride 0 12])).
Proof.
  refine (empty_first_month_leaves_only_null_ids Sample.empty_january 3 Sample.fresh
            [Sample.ride 0 12] _ eq_refl eq_refl _).
  vm_compute. reflexivity.
Defined.

Lemma append_months_reads w1 w2 urls :
  read_parquet w1 = read_parquet w2 ->
  forall table, append_months w1 urls table = append_months w2 urls table.
Proof.
  intro H. induction urls as [|url rest IH]; intro table; simpl;
    [reflexivity|]. now rewrite H, IH.
Qed.

(** X12: when the months load but a reporting query fails, the outer
    handler makes [setup_database] return [False] and the process exit
    with 1, although the trips table is complete: it holds the same rows
    as after a successful run. *)
Theorem reporting_failure_fails_the_run_keeps_the_data
        (w : world) (n : Z) (s : state) file :
  1 <= n ->
  read_parquet w (url_of (current_year, 1)) = Some file ->
  df_ok w = false ->
  (exists s',
     setup_database w n s = (Ret false, s') /\
     trips s' = Some (append_months w (tl (urls_of n)) (select_first file)) /\
     trips s'
     = trips (snd (setup_database
                     (mkWorld (zone_lookup_response w) (read_parquet w) true
                              (failed_write_leaves w) (str_strip w) (int_of_str w))
                     n s))) /\
  (forall i, i <> EndOfFile -> fst (main w i s) = Ret 1).
Proof.
  intros Hn Hfile Hdf. split.
  - destruct (setup_database_spec w n s) as (f' & out & E & _).
    rewrite trips_after_first, Hfile, Hdf in E by exact Hn.
    eexists. split; [exact E|]. split; [reflexivity|].
    rewrite setup_database_trips, trips_after_first by exact Hn.
    cbn [read_parquet]. rewrite Hfile. simpl. f_equal.
    now apply append_months_reads.
  - intros i Hi. now rewrite main_value, Hfile, Hdf.
Qed.

Lemma reporting_failure_fails_the_run_keeps_the_data_witness :
  fst (main Sample.no_pandas (Line "2") Sample.fresh) = Ret 1.
Proof.
  refine (proj2 (reporting_failure_fails_the_run_keeps_the_data
                   Sample.no_pandas 2 Sample.fresh
                   [Sample.ride 1 12; Sample.ride 3 30] _ eq_refl eq_refl)
                (Line "2") _).
  - lia.
  - discriminate.
Defined.

(** *** The loop over the later months *)

(** X13: the loop over [urls[1:]] never raises once the trips table
    exists: each month is announced and then reported as loaded or as
    not loaded, in order; the months that load are appended to the table
    and nothing else in the database changes. *)
Theorem later_months_are_loaded_or_reported
        (w : world) (urls : list string) (s : state) table :
  trips s = Some table ->
  for_each urls (load_month w) s
  = (Ret tt,
     mkState (zones s) (Some (append_months w urls table)) (tmp_csv s)
             (con_open s) (stdout s ++ flat_map (month_lines w) urls)).
Proof.
  destruct s as [z t f c o]. simpl. intros ->.
  revert table o. induction urls as [|url rest IH]; intros table o.
  - simpl. now rewrite app_nil_r.
  - cbn [for_each flat_map append_months]. unfold bind, load_month at 1.
    unfold month_lines at 1. run.
    destruct (read_parquet w url) as [file|]; run; rewrite IH;
      now rewrite <- !app_assoc.
Qed.

Lemma later_months_are_loaded_or_reported_witness :
  for_each [Sample.feb; Sample.mar] (load_month Sample.no_february)
    (set_trips (Some []) Sample.fresh)
  = (Ret tt,
     mkState None (Some (append_months Sample.no_february [Sample.feb; Sample.mar] []))
             None false
             [Reading Sample.feb; CouldNotLoad Sample.feb;
              Reading Sample.mar; Loaded Sample.mar]).
Proof.
  exact (later_months_are_loaded_or_reported Sample.no_february
           [Sample.feb; Sample.mar] (set_trips (Some []) Sample.fresh) [] eq_refl).
Defined.

(** *** The temporary file *)

Lemma load_zones_tmp_csv w z t f c o :
  tmp_csv (snd (load_zones w (mkState z t f c o)))
  = match zone_lookup_response w, failed_write_leaves w with
    | Some body, _ => Some body
    | None, Some partial => Some partial
    | None, None => f
    end.
Proof.
  unfold load_zones, download_zone_lookup.
  destruct (zone_lookup_response w) as [[rows|]|].
  - reflexivity.
  - cbv [bind modify print ret raise try_except drop_zones
      create_zones_from_csv get set_tmp_csv add_stdout set_zones
      zones trips tmp_csv con_open stdout is_Exception].
    now rewrite create_minimal_zones_fresh.
  - destruct (failed_write_leaves w);
      cbv [bind modify print ret drop_zones set_tmp_csv add_stdout set_zones
           zones trips tmp_csv con_open stdout];
      now rewrite create_minimal_zones_fresh.
Qed.

(** X14: a run never removes the temporary CSV and touches it only in
    [download_zone_lookup]: after the run the file holds the body of this
    run's zone-lookup response when the download succeeded (readable or
    not, and whether or not the trips then loaded); when the download
    failed while writing, it holds what the failed write left of it; and
    when the download failed before the file was opened, it is whatever
    it was before the run. *)
Theorem temporary_csv_is_left_behind (w : world) (n : Z) (s : state) :
  tmp_csv (snd (setup_database w n s))
  = match zone_lookup_response w, failed_write_leaves w with
    | Some body, _ => Some body
    | None, Some partial => Some partial
    | None, None => tmp_csv s
    end.
Proof.
  destruct s as [z t f c o]. unfold setup_database. run.
  pose proof (load_zones_tmp_csv w z t f true o) as Htmp.
  destruct (load_zones_spec w z t f true o) as (f' & o1 & E1).
  rewrite E1 in Htmp |- *. simpl in Htmp. subst f'.
  match goal with
  | |- context [load_trips w n (mkState ?zs ?t' ?f' ?c' ?o')] =>
      destruct (load_trips_spec w n (zones_after w) t' f' c' o') as (o2 & E2 & _)
  end.
  rewrite E2. reflexivity.
Qed.

(** A download that fails while writing, on a machine where an earlier
    run left a readable CSV: the file is no longer that CSV, it is not
    read, and the zones are the fallback rows. *)
Example failed_write_truncates_the_csv :
  tmp_csv (snd (setup_database Sample.write_fails 1 Sample.stale_lookup))
  = Some CsvUnreadable /\
  zones (snd (setup_database Sample.write_fails 1 Sample.stale_lookup))
  = Some zones_data.
Proof. split; vm_compute; reflexivity. Qed.
